(** * cookiecutter: hook execution and context serialization

    A shallow embedding of [cookiecutter/hooks.py] and of the serialization
    facade exercised by [tests/test_serialization.py], with the properties
    of the specification stated and proved over it.

    Text and byte strings are both [string] (a sequence of 8-bit characters,
    text being held in its UTF-8 encoding), Python dictionaries with string
    keys are [gmap string _], and code that raises returns a [result]. *)

From Stdlib Require Import ZArith String Ascii List DecimalString DecimalPos DecimalZ Lia.
From stdpp Require Import base option gmap strings list.

Set Warnings "-register-all".
Local Open Scope string_scope.
Local Open Scope Z_scope.

(** ** Python string and path operations used by the source *)

Module PyStr.

(** [s.startswith(p)] *)
Definition startswith (s p : string) : bool := String.prefix p s.

(** [s.endswith(suf)] *)
Definition endswith (s suf : string) : bool :=
  let n := String.length s in
  let k := String.length suf in
  if (k <=? n)%nat then String.eqb (substring (n - k) k s) suf else false.

(** the characters of [s] from index [n] on: [s[n:]] *)
Fixpoint drop (n : nat) (s : string) : string :=
  match n, s with
  | O, _ => s
  | S k, EmptyString => EmptyString
  | S k, String _ r => drop k r
  end.

(** the first [n] characters of [s]: [s[:n]] *)
Fixpoint take (n : nat) (s : string) : string :=
  match n, s with
  | O, _ => EmptyString
  | S k, EmptyString => EmptyString
  | S k, String c r => String c (take k r)
  end.

Fixpoint rfind_from (c : ascii) (s : string) (i acc : Z) : Z :=
  match s with
  | EmptyString => acc
  | String a r => rfind_from c r (i + 1) (if Ascii.eqb a c then i else acc)
  end.

(** [s.rfind(c)] for a one-character [c]: the last index of [c], or -1 *)
Definition rfind (c : ascii) (s : string) : Z := rfind_from c s 0 (-1).

(** every character of [s] is [c] *)
Fixpoint all_char (c : ascii) (s : string) : bool :=
  match s with
  | EmptyString => true
  | String a r => Ascii.eqb a c && all_char c r
  end.

(** [c in s] for a one-character [c] *)
Fixpoint mem (c : ascii) (s : string) : bool :=
  match s with
  | EmptyString => false
  | String a r => Ascii.eqb a c || mem c r
  end.

(** [posixpath.basename]: what follows the last slash *)
Definition basename (p : string) : string :=
  drop (Z.to_nat (rfind "/" p + 1)) p.

(** [posixpath.splitext]: the extension starts at the last dot of the last
    path component, leading dots of that component not counting *)
Definition splitext (p : string) : string * string :=
  let sepIndex := rfind "/" p in
  let dotIndex := rfind "." p in
  if dotIndex >? sepIndex then
    let filenameIndex := Z.to_nat (sepIndex + 1) in
    let leading := take (Z.to_nat dotIndex - filenameIndex) (drop filenameIndex p) in
    if all_char "." leading then (p, EmptyString)
    else (take (Z.to_nat dotIndex) p, drop (Z.to_nat dotIndex) p)
  else (p, EmptyString).

(** [posixpath.join] of two components *)
Definition join (a b : string) : string :=
  if startswith b "/" then b
  else if String.eqb a EmptyString || endswith a "/" then a ++ b
  else a ++ "/" ++ b.

(** ["%d" % n] *)
Definition format_d (n : Z) : string := NilZero.string_of_int (Z.to_int n).

(** the double quote, and a text between double quotes *)
Definition dquote : ascii := "034"%char.

Definition quoted (s : string) : string :=
  String dquote (s ++ String dquote EmptyString).

End PyStr.

(** ** The regular expression [(\{.*\})] under [re.findall]

    [.] matches every character but the newline, [*] is greedy, and
    [findall] returns the matches found from left to right, each search
    starting where the previous match ended. *)

Module Re.

Definition newline : ascii := "010"%char.

(** the characters before the first newline: how far [.*] can reach *)
Fixpoint upto_newline (s : string) : string :=
  match s with
  | EmptyString => EmptyString
  | String c r => if Ascii.eqb c newline then EmptyString else String c (upto_newline r)
  end.

(** the longest prefix of [s] that ends with a closing brace *)
Fixpoint upto_last_brace (s : string) : option string :=
  match s with
  | EmptyString => None
  | String c r =>
      match upto_last_brace r with
      | Some m => Some (String c m)
      | None => if Ascii.eqb c "}" then Some (String c EmptyString) else None
      end
  end.

(** the match of [\{.*\}] anchored at the start of [s] *)
Definition match_here (s : string) : option string :=
  match s with
  | String c r =>
      if Ascii.eqb c "{" then
        match upto_last_brace (upto_newline r) with
        | Some m => Some (String c m)
        | None => None
        end
      else None
  | EmptyString => None
  end.

(** [skip] counts the characters still covered by the previous match *)
Fixpoint findall_from (skip : nat) (s : string) : list string :=
  match s with
  | EmptyString => []
  | String _ r =>
      match skip with
      | S k => findall_from k r
      | O =>
          match match_here s with
          | Some m => m :: findall_from (String.length m - 1) r
          | None => findall_from 0 r
          end
      end
  end.

(** [re.findall('(\{.*\})', s)] *)
Definition findall (s : string) : list string := findall_from 0 s.

(** What the matches are, without the scan. A text has a brace-delimited
    part when an opening brace is followed on its line by a closing one. *)
Definition nl : string := String newline EmptyString.

Definition has_brace_pair (s : string) : Prop :=
  exists x y z, s = x ++ "{" ++ y ++ "}" ++ z /\ PyStr.mem newline y = false.

Definition starts_line (before : string) : Prop :=
  before = EmptyString \/ exists p, before = p ++ nl.

Definition ends_line (after : string) : Prop :=
  after = EmptyString \/ exists q, after = nl ++ q.

(** [m] is the last brace-delimited part of [text]: it runs from the first
    opening brace to the last closing brace of a line, and no later line
    has such a part. *)
Inductive last_braced (text m : string) : Prop :=
  | LastBraced (before a mid b after : string) :
      text = before ++ a ++ m ++ b ++ after ->
      m = "{" ++ mid ++ "}" ->
      starts_line before ->
      ends_line after ->
      PyStr.mem newline (a ++ mid ++ b) = false ->
      PyStr.mem "{" a = false ->
      PyStr.mem "}" b = false ->
      ~ has_brace_pair after ->
      last_braced text m.

End Re.

(** ** JSON values: what [json.loads] returns and a context holds *)

Inductive json : Type :=
  | JNull
  | JBool (b : bool)
  | JInt (n : Z)
  | JStr (s : string)
  | JList (l : list json)
  | JDict (d : gmap string json).

(** Python's truth value of a JSON value *)
Definition truthy (v : json) : bool :=
  match v with
  | JNull => false
  | JBool b => b
  | JInt n => negb (n =? 0)
  | JStr s => negb (String.eqb s EmptyString)
  | JList l => match l with [] => false | _ => true end
  | JDict d => negb (bool_decide (d = ∅))
  end.

(** ** Exceptions and the monad of effectful code *)

(** Modelled from the spec: the exception classes of
    [cookiecutter/exceptions.py], which is not part of the sources at hand.
    The spec has each of them reach the caller of the hook or of the facade,
    so none of them is a [ValueError]; the builtin [ValueError] stands also
    for its subclasses [UnicodeDecodeError] and [JSONDecodeError]. The
    builtin [RecursionError], which [json.loads] raises on a text nested
    deeper than the interpreter recurses, is a [RuntimeError] and no
    [ValueError]. *)
Inductive exn : Type :=
  | FailedHookException (message : string)
  | UnknownSerializerType (message : string)
  | BadSerializedStringFormat (message : string)
  | InvalidSerializerType (message : string)
  | InvalidType (message : string)
  | ValueError (message : string)
  | OSError (message : string)
  | RecursionError (message : string)
  | TemplateError (message : string).

(** what [except ValueError] catches *)
Definition is_ValueError (e : exn) : bool :=
  match e with ValueError _ => true | _ => false end.

Inductive result (A : Type) : Type :=
  | Ok (a : A)
  | Raise (e : exn).
Arguments Ok {A} a.
Arguments Raise {A} e.

Definition M (World A : Type) : Type := World -> result A * World.

Definition ret {World A} (a : A) : M World A := fun w => (Ok a, w).

Definition raise {World A} (e : exn) : M World A := fun w => (Raise e, w).

Definition bind {World A B} (m : M World A) (k : A -> M World B) : M World B :=
  fun w => match m w with
           | (Ok a, w') => k a w'
           | (Raise e, w') => (Raise e, w')
           end.

(** [try: m except ValueError: h] *)
Definition try_except_ValueError {World A} (m h : M World A) : M World A :=
  fun w => match m w with
           | (Raise e, w') => if is_ValueError e then h w' else (Raise e, w')
           | r => r
           end.

Notation "x <- m ;; k" := (bind m (fun x => k))
  (at level 100, m at next level, right associativity).

(** ** The platform: operating system and libraries the hooks call

    The file system, the temporary files, the child process and the
    libraries [json], [jinja2] and [cookiecutter.utils] are outside the
    module; they are the operations of this interface, over a state [World]
    the module threads through its calls. *)

Class Platform (World : Type) := {
  (** [sys.platform] and [sys.executable] *)
  sys_platform : string;
  sys_executable : string;
  (** [os.path.isdir], [os.listdir], [os.path.abspath] *)
  os_path_isdir : string -> World -> bool;
  os_listdir : string -> M World (list string);
  os_path_abspath : string -> World -> string;
  (** [io.open(path, 'r', encoding='utf-8').read()] *)
  io_open_read : string -> M World string;
  (** [tempfile.NamedTemporaryFile(delete=False, mode='wb', suffix=...)]:
      creates the file and gives its name *)
  NamedTemporaryFile : string -> M World string;
  (** [temp.write(data)] and the closing of the file *)
  temp_write : string -> string -> M World unit;
  (** [utils.make_executable] *)
  make_executable : string -> M World unit;
  (** [subprocess.Popen(command, shell=.., cwd=.., stdin=PIPE, stdout=PIPE,
      stderr=PIPE)], [communicate(input)] and [wait()]: standard output,
      standard error and exit status of the child *)
  Popen_communicate :
    list string -> bool -> string -> string -> M World (string * string * Z);
  (** [json.dumps] *)
  json_dumps : gmap string json -> string;
  (** [json.loads]: the value of the text, or the exception it raises, a
      [ValueError] ([JSONDecodeError]) on a text that is not JSON and another
      one, such as [RecursionError], when the decoder itself gives up *)
  json_loads : string -> result json;
  (** [bytes.decode()] ([None] for its [UnicodeDecodeError]) *)
  bytes_decode : string -> option string;
  (** [jinja2.Template(contents).render] with the context as keyword
      arguments *)
  Template_render : string -> gmap string json -> result string;
}.

(** ** cookiecutter/hooks.py *)

Section Hooks.

Context {World : Type} `{Platform World}.

Definition _HOOKS : list string := ["pre_gen_project"; "post_gen_project"].

Definition EXIT_SUCCESS : Z := 0.

Definition find_hooks : M World (gmap string string) :=
  let hooks_dir := "hooks" in
  let r : gmap string string := ∅ in
  fun w =>
    if negb (os_path_isdir hooks_dir w) then (Ok r, w)
    else
      (listing <- os_listdir hooks_dir ;;
       fun w' =>
         (Ok (foldl (fun (r : gmap string string) f =>
                       let basename := fst (PyStr.splitext (PyStr.basename f)) in
                       if bool_decide (basename ∈ _HOOKS)
                       then <[basename := os_path_abspath (PyStr.join hooks_dir f) w']> r
                       else r)
                    r listing), w')) w.

Definition __create_renderable_hook
    (script_path : string) (context : gmap string json) : M World string :=
  let extension := snd (PyStr.splitext script_path) in
  contents <- io_open_read script_path ;;
  temp_name <- NamedTemporaryFile extension ;;
  output <- (fun w => (Template_render contents context, w)) ;;
  _ <- temp_write temp_name output ;;
  ret temp_name.

Definition __get_script_command (script_path : string) : M World (list string) :=
  let script_command :=
    if PyStr.endswith script_path ".py" then [sys_executable; script_path]
    else [script_path] in
  _ <- make_executable script_path ;;
  ret script_command.

Definition __do_run_script
    (script_path cwd serialized_context : string) : M World (string * string) :=
  let run_thru_shell := PyStr.startswith sys_platform "win" in
  command <- __get_script_command script_path ;;
  proc <- Popen_communicate command run_thru_shell cwd serialized_context ;;
  let '(out, err, exit_status) := proc in
  if negb (exit_status =? EXIT_SUCCESS)
  then raise (FailedHookException
                ("Hook script failed (exit status: " ++ PyStr.format_d exit_status ++ ")"))
  else ret (out, err).

Definition run_in_place (context : gmap string json) : bool :=
  match context !! "_run_hook_in_place" with
  | Some v => truthy v
  | None => false
  end.

(** lines 64-67 of [run_script_with_context]: the script to execute *)
Definition script_to_run
    (script_path : string) (context : gmap string json) : M World string :=
  if run_in_place context then ret script_path
  else __create_renderable_hook script_path context.

(** lines 69-74 of [run_script_with_context]: the [try] statement *)
Definition run_and_read_context
    (script cwd : string) (context : gmap string json) : M World json :=
  try_except_ValueError
    (result <- __do_run_script script cwd (json_dumps context) ;;
     match bytes_decode (fst result) with
     | None => raise (ValueError "UnicodeDecodeError")
     | Some text =>
         let json_search := Re.findall text in
         match last json_search with
         | Some found =>
             match json_loads found with
             | Ok new_context => ret new_context
             | Raise e => raise e
             end
         | None => ret (JDict context)
         end
     end)
    (ret (JDict context)).

Definition run_script_with_context
    (script_path cwd : string) (context : gmap string json) : M World json :=
  script <- script_to_run script_path context ;;
  run_and_read_context script cwd context.

Definition run_hook
    (hook_name project_dir : string) (context : gmap string json) : M World json :=
  hooks <- find_hooks ;;
  match hooks !! hook_name with
  | None => ret (JDict context)
  | Some script => run_script_with_context script project_dir context
  end.

(** What lines 71-74 make of the standard output [out] of a child that
    exited with status 0: the context they return, or the exception of
    [json.loads] that [except ValueError] lets through. *)
Definition context_from_output
    (context : gmap string json) (out : string) : result json :=
  match bytes_decode out with
  | None => Ok (JDict context)
  | Some text =>
      match last (Re.findall text) with
      | Some found =>
          match json_loads found with
          | Ok new_context => Ok new_context
          | Raise e => if is_ValueError e then Ok (JDict context) else Raise e
          end
      | None => Ok (JDict context)
      end
  end.

(** The child process of a hook was started and has exited: the script
    to run was obtained, made executable and spawned with the JSON text of
    the context on its standard input, and the child printed [out] and
    [err] and returned [status], leaving the world [w']. *)
Inductive hook_exited (script_path cwd : string) (context : gmap string json)
    (w : World) (out err : string) (status : Z) (w' : World) : Prop :=
  | HookExited (script : string) (w1 w2 : World) :
      script_to_run script_path context w = (Ok script, w1) ->
      make_executable script w1 = (Ok tt, w2) ->
      Popen_communicate
        (if PyStr.endswith script ".py" then [sys_executable; script] else [script])
        (PyStr.startswith sys_platform "win") cwd (json_dumps context) w2
        = (Ok (out, err, status), w') ->
      hook_exited script_path cwd context w out err status w'.

End Hooks.

(** the directory part of a path: nothing, or a path ending with a slash *)
Definition directory_prefix (d : string) : Prop :=
  d = EmptyString \/ exists q, d = q ++ "/".

(** line 49 of [find_hooks]: the name of a listed file without its extension *)
Definition hook_stem (f : string) : string :=
  fst (PyStr.splitext (PyStr.basename f)).

(** the text [{"new_key": "v"}] a hook of the specification prints, and the
    context it stands for *)
Definition new_key_text : string :=
  "{" ++ PyStr.quoted "new_key" ++ ": " ++ PyStr.quoted "v" ++ "}".

Definition new_key_context : gmap string json := {[ "new_key" := JStr "v" ]}.

(** ** The serialization facade

    Modelled from the spec: [cookiecutter/serialization.py] is not part of
    the sources at hand, only its tests are. The facade, its registry and
    the envelope [type|payload$] follow sections 3, 4.1, 4.2 and 6 of the
    specification; the two serializers of the tests are translated from
    [tests/test_serialization.py]. *)

Module Serialization.

(** Modelled from the spec: the missing tag grammar of section 6,
    [[A-Za-z_][A-Za-z0-9_.-]*]. *)
Definition is_letter (c : ascii) : bool :=
  let n := nat_of_ascii c in
  ((65 <=? n) && (n <=? 90) || (97 <=? n) && (n <=? 122))%nat.

Definition is_digit (c : ascii) : bool :=
  let n := nat_of_ascii c in ((48 <=? n) && (n <=? 57))%nat.

Definition is_tag_start (c : ascii) : bool := is_letter c || Ascii.eqb c "_".

Definition is_tag_char (c : ascii) : bool :=
  is_tag_start c || is_digit c || Ascii.eqb c "." || Ascii.eqb c "-".

Fixpoint all_tag_chars (s : string) : bool :=
  match s with
  | EmptyString => true
  | String c r => is_tag_char c && all_tag_chars r
  end.

Definition valid_tag (t : string) : bool :=
  match t with
  | EmptyString => false
  | String c r => is_tag_start c && all_tag_chars r
  end.

(** Modelled from the spec: the missing codec capability of section 4.1,
    [serialize(context) -> payload] and [deserialize(payload) -> context];
    a codec may raise on a payload it cannot decode. *)
Record Serializer : Type := {
  ser_serialize : gmap string json -> string;
  ser_deserialize : string -> result (gmap string json);
}.

(** Modelled from the spec: what [register] is given (section 4.2), an
    instance or a class instantiated with no arguments; the flag says
    whether its class declares the capability [AbstractSerializer],
    whatever methods it has. *)
Inductive pyobject : Type :=
  | Instance (is_AbstractSerializer : bool) (methods : Serializer)
  | Class (is_AbstractSerializer : bool) (methods : Serializer).

Definition declares_capability (o : pyobject) : bool :=
  match o with Instance b _ => b | Class b _ => b end.

Definition instance_of (o : pyobject) : Serializer :=
  match o with Instance _ m => m | Class _ m => m end.

(** Modelled from the spec: the missing registry of section 3, a mapping
    from tags to serializers and the current type. *)
Record Facade : Type := {
  serializers : gmap string Serializer;
  current_type : string;
}.

(** Modelled from the spec: the missing extraction of the envelope
    (sections 3, 4.2 and 6). An envelope is a tag, a bar, an arbitrary
    payload and the closing dollar. The match is greedy, as the one of
    [hooks.py] is: of the envelope-shaped parts of the text it is the one
    that ends last and is longest, from the first tag followed by a bar to
    the last dollar. The payload may thus hold bars and dollars, and the
    envelope [serialize] writes is always read back whole, which is the
    invariant of section 3; an extraction taking the part that starts last
    could not keep it (see [written_envelope_or_last_start] below). *)
Fixpoint span_tag (s : string) : string * string :=
  match s with
  | EmptyString => (EmptyString, EmptyString)
  | String c r =>
      if is_tag_char c then let (run, rest) := span_tag r in (String c run, rest)
      else (EmptyString, s)
  end.

Fixpoint find_head (s : string) : option (string * string) :=
  match s with
  | EmptyString => None
  | String c r =>
      if is_tag_start c then
        match span_tag r with
        | (run, String b payload) =>
            if Ascii.eqb b "|" then Some (String c run, payload) else find_head r
        | _ => find_head r
        end
      else find_head r
  end.

(** the text before the last dollar *)
Fixpoint before_last_dollar (s : string) : option string :=
  match s with
  | EmptyString => None
  | String c r =>
      match before_last_dollar r with
      | Some p => Some (String c p)
      | None => if Ascii.eqb c "$" then Some EmptyString else None
      end
  end.

Definition last_envelope (s : string) : option (string * string) :=
  match find_head s with
  | Some (tag, rest) =>
      match before_last_dollar rest with
      | Some payload => Some (tag, payload)
      | None => None
      end
  | None => None
  end.

Definition bad_format_message : string :=
  "Serialized string should be of the form type|payload$".

Definition invalid_type_message : string :=
  "serializer should implement AbstractSerializer".

(** Modelled from the spec: [register] of section 4.2; the tag is checked
    before the capability, and a failure leaves the facade as it was. *)
Definition register (type : string) (serializer : pyobject) : M Facade unit :=
  fun f =>
    if negb (valid_tag type) then (Raise (InvalidSerializerType type), f)
    else if negb (declares_capability serializer)
    then (Raise (InvalidType invalid_type_message), f)
    else (Ok tt, {| serializers := <[type := instance_of serializer]> (serializers f);
                    current_type := current_type f |}).

(** Modelled from the spec: [get_type] of section 4.2. *)
Definition get_type : M Facade string := fun f => (Ok (current_type f), f).

(** Modelled from the spec: [serialize] of section 4.2. *)
Definition serialize (context : gmap string json) (type : option string)
    : M Facade string :=
  fun f =>
    let tag := match type with Some t => t | None => current_type f end in
    match serializers f !! tag with
    | None => (Raise (UnknownSerializerType tag), f)
    | Some s => (Ok (tag ++ "|" ++ ser_serialize s context ++ "$"), f)
    end.

(** Modelled from the spec: [deserialize] of section 4.2; the current
    type is set once the payload has been decoded. *)
Definition deserialize (text : string) : M Facade (gmap string json) :=
  fun f =>
    match last_envelope text with
    | None => (Raise (BadSerializedStringFormat bad_format_message), f)
    | Some (tag, payload) =>
        match serializers f !! tag with
        | None => (Raise (UnknownSerializerType tag), f)
        | Some s =>
            match ser_deserialize s payload with
            | Ok context =>
                (Ok context, {| serializers := serializers f; current_type := tag |})
            | Raise e => (Raise e, f)
            end
        end
    end.

Fixpoint register_all (l : list (string * pyobject)) : M Facade unit :=
  match l with
  | [] => ret tt
  | (type, serializer) :: r => _ <- register type serializer ;; register_all r
  end.

(** Modelled from the spec: the construction of section 4.2, the default
    [json] serializer first, then the initial mapping. *)
Definition SerializationFacade (JsonSerializer : Serializer)
    (initial : list (string * pyobject)) : result Facade :=
  match (_ <- register "json" (Class true JsonSerializer) ;; register_all initial)
          {| serializers := ∅; current_type := "json" |} with
  | (Ok _, f) => Ok f
  | (Raise e, _) => Raise e
  end.

(** The grammar of tags, character by character. *)
Definition tag_grammar (t : string) : Prop :=
  exists c r,
    t = String c r /\
    (is_letter c = true \/ c = "_"%char) /\
    forall x, PyStr.mem x r = true ->
              is_letter x = true \/ is_digit x = true \/
              x = "_"%char \/ x = "."%char \/ x = "-"%char.

(** The calls a facade takes, and the facade after a call. *)
Inductive call : Type :=
  | CallSerialize (context : gmap string json) (type : option string)
  | CallDeserialize (text : string)
  | CallRegister (type : string) (serializer : pyobject)
  | CallGetType.

Definition after (c : call) (f : Facade) : Facade :=
  match c with
  | CallSerialize context type => snd (serialize context type f)
  | CallDeserialize text => snd (deserialize text f)
  | CallRegister type serializer => snd (register type serializer f)
  | CallGetType => snd (get_type f)
  end.

Definition after_all (calls : list call) (f : Facade) : Facade :=
  foldl (fun f c => after c f) f calls.

Definition is_deserialize (c : call) : bool :=
  match c with CallDeserialize _ => true | _ => false end.

(** The facades there are: the constructed ones, and those after a call. *)
Inductive reachable (JsonSerializer : Serializer) : Facade -> Prop :=
  | ReachNew (initial : list (string * pyobject)) (f : Facade) :
      SerializationFacade JsonSerializer initial = Ok f ->
      reachable JsonSerializer f
  | ReachCall (c : call) (f : Facade) :
      reachable JsonSerializer f -> reachable JsonSerializer (after c f).

(** A text in the shape of an envelope, and a text containing one. *)
Definition envelope_shaped (u : string) : Prop :=
  exists t p, valid_tag t = true /\ u = t ++ "|" ++ p ++ "$".

Definition contains_envelope (s : string) : Prop :=
  exists pre u post, s = pre ++ u ++ post /\ envelope_shaped u.

(** [(t, p)] is the envelope of [s]: tag, bar, payload and dollar stand in
    [s], no tag followed by a bar starts earlier in [s], and no dollar
    follows. *)
Inductive last_enveloped (s t p : string) : Prop :=
  | LastEnveloped (x after : string) :
      s = x ++ t ++ "|" ++ p ++ "$" ++ after ->
      valid_tag t = true ->
      (forall x1 t1 r1,
         s = x1 ++ t1 ++ "|" ++ r1 -> valid_tag t1 = true ->
         (String.length x <= String.length x1)%nat) ->
      PyStr.mem "$" after = false ->
      last_enveloped s t p.

End Serialization.

(** ** The serializers of tests/test_serialization.py *)

Module TestSerializers.

(** [sub in s] for strings *)
Fixpoint contains (sub s : string) : bool :=
  String.prefix sub s ||
  match s with
  | EmptyString => false
  | String _ r => contains sub r
  end.

(** [get_context()['object']] and [get_context()['object2']] *)
Definition object : gmap string json := {[ "my_key" := JStr "my_val" ]}.
Definition object2 : gmap string json := {[ "my_key2" := JStr "my_val2" ]}.

(** [DummySerializer(AbstractSerializer)] *)
Definition DummySerializer : Serialization.Serializer :=
  {| Serialization.ser_serialize subject :=
       if bool_decide (is_Some (subject !! "my_key2"))
       then " serialized text" else "serialized";
     Serialization.ser_deserialize string :=
       if contains "serialized text" string then Ok object2 else Ok object |}.

(** [FakeSerializer(object)]: the two methods, no declared capability *)
Definition FakeSerializer : Serialization.pyobject :=
  Serialization.Class false
    {| Serialization.ser_serialize subject := "serialized";
       Serialization.ser_deserialize string := Ok ∅ |}.

End TestSerializers.

(** ** A small platform to run the hooks on

    One directory listing, a table of files, a counter naming the temporary
    files, and a child process given by what it prints and returns. Its
    JSON reader knows the strings and the objects of them, nested or not,
    and recurses no deeper than [recursion_limit] objects, as the
    interpreter does in [json.loads]. *)

Module Toy.

Definition is_json_space (c : ascii) : bool :=
  Ascii.eqb c " " || Ascii.eqb c "009" || Ascii.eqb c "010" || Ascii.eqb c "013".

Fixpoint skip_spaces (s : string) : string :=
  match s with
  | String c r => if is_json_space c then skip_spaces r else s
  | EmptyString => s
  end.

(** the characters before the next double quote, and what follows it *)
Fixpoint read_quoted (s : string) : option (string * string) :=
  match s with
  | EmptyString => None
  | String c r =>
      if Ascii.eqb c PyStr.dquote then Some (EmptyString, r)
      else match read_quoted r with
           | Some (a, rest) => Some (String c a, rest)
           | None => None
           end
  end.

Definition read_string (s : string) : option (string * string) :=
  match skip_spaces s with
  | String c r => if Ascii.eqb c PyStr.dquote then read_quoted r else None
  | EmptyString => None
  end.

(** the two ways the reader fails: the text is not JSON, or its objects
    nest deeper than the reader recurses *)
Definition not_json : exn := ValueError "JSONDecodeError".

Definition too_deep : exn :=
  RecursionError
    "maximum recursion depth exceeded while decoding a JSON object from a unicode string".

Definition recursion_limit : nat := 1000.

(** the value, a string or an object, at the head of [s] and what follows
    it; [depth] counts the objects being read *)
Fixpoint read_value (fuel depth : nat) (s : string) : result (json * string) :=
  match fuel with
  | O => Raise not_json
  | S n =>
      match skip_spaces s with
      | String c r =>
          if Ascii.eqb c PyStr.dquote then
            match read_quoted r with
            | Some (v, rest) => Ok (JStr v, rest)
            | None => Raise not_json
            end
          else if Ascii.eqb c "{" then
            if (recursion_limit <=? depth)%nat then Raise too_deep
            else
              match skip_spaces r with
              | String d r' =>
                  if Ascii.eqb d "}" then Ok (JDict ∅, r')
                  else read_members n (S depth) r ∅
              | EmptyString => Raise not_json
              end
          else Raise not_json
      | EmptyString => Raise not_json
      end
  end
with read_members (fuel depth : nat) (s : string) (acc : gmap string json)
    : result (json * string) :=
  match fuel with
  | O => Raise not_json
  | S n =>
      match read_string s with
      | Some (k, r1) =>
          match skip_spaces r1 with
          | String c r2 =>
              if Ascii.eqb c ":" then
                match read_value n depth r2 with
                | Ok (v, r3) =>
                    match skip_spaces r3 with
                    | String d r4 =>
                        if Ascii.eqb d "," then read_members n depth r4 (<[k := v]> acc)
                        else if Ascii.eqb d "}" then Ok (JDict (<[k := v]> acc), r4)
                        else Raise not_json
                    | EmptyString => Raise not_json
                    end
                | Raise e => Raise e
                end
              else Raise not_json
          | EmptyString => Raise not_json
          end
      | None => Raise not_json
      end
  end.

Definition loads (s : string) : result json :=
  match read_value (2 * String.length s + 2) 0 s with
  | Ok (v, rest) =>
      match skip_spaces rest with
      | EmptyString => Ok v
      | _ => Raise not_json
      end
  | Raise e => Raise e
  end.

Definition dumps_value (v : json) : string :=
  match v with
  | JStr s => PyStr.quoted s
  | JInt n => PyStr.format_d n
  | JBool true => "true"
  | JBool false => "false"
  | _ => "null"
  end.

Fixpoint dumps_members (l : list (string * json)) : string :=
  match l with
  | [] => EmptyString
  | [(k, v)] => PyStr.quoted k ++ ": " ++ dumps_value v
  | (k, v) :: r => PyStr.quoted k ++ ": " ++ dumps_value v ++ ", " ++ dumps_members r
  end.

Definition dumps (context : gmap string json) : string :=
  "{" ++ dumps_members (map_to_list context) ++ "}".

Fixpoint is_ascii_text (s : string) : bool :=
  match s with
  | EmptyString => true
  | String c r => (nat_of_ascii c <? 128)%nat && is_ascii_text r
  end.

Record world : Type := {
  hooks_listing : option (list string);
  files : gmap string string;
  temp_count : nat;
  executables : list string;
  child : list string -> string -> string * string * Z;
  spawned : list (list string);
}.

Definition set_files (fs : gmap string string) (n : nat) (w : world) : world :=
  {| hooks_listing := hooks_listing w; files := fs; temp_count := n;
     executables := executables w; child := child w; spawned := spawned w |}.

#[global] Instance platform : Platform world := {|
  sys_platform := "linux";
  sys_executable := "/usr/bin/python";
  os_path_isdir p w := String.eqb p "hooks" && bool_decide (is_Some (hooks_listing w));
  os_listdir p w :=
    match hooks_listing w with
    | Some l => if String.eqb p "hooks" then (Ok l, w) else (Raise (OSError p), w)
    | None => (Raise (OSError p), w)
    end;
  os_path_abspath p w := "/template/" ++ p;
  io_open_read p w :=
    match files w !! p with
    | Some text => (Ok text, w)
    | None => (Raise (OSError p), w)
    end;
  NamedTemporaryFile suffix w :=
    let name := "/tmp/tmp" ++ PyStr.format_d (Z.of_nat (temp_count w)) ++ suffix in
    (Ok name, set_files (<[name := EmptyString]> (files w)) (S (temp_count w)) w);
  temp_write name data w :=
    (Ok tt, set_files (<[name := data]> (files w)) (temp_count w) w);
  make_executable p w :=
    (Ok tt, {| hooks_listing := hooks_listing w; files := files w;
               temp_count := temp_count w; executables := p :: executables w;
               child := child w; spawned := spawned w |});
  Popen_communicate command shell cwd input w :=
    (Ok (child w command input),
     {| hooks_listing := hooks_listing w; files := files w;
        temp_count := temp_count w; executables := executables w;
        child := child w; spawned := command :: spawned w |});
  json_dumps := dumps;
  json_loads := loads;
  bytes_decode s := if is_ascii_text s then Some s else None;
  Template_render contents context := Ok contents;
|}.

(** a template with a hook [hooks/pre_gen_project.sh] whose run prints
    [out] and [err] and returns [status] *)
Definition with_hook (out err : string) (status : Z) : world :=
  {| hooks_listing := Some ["README.md"; "pre_gen_project.sh"];
     files := {[ "/template/hooks/pre_gen_project.sh" := "echo hello" ]};
     temp_count := 0;
     executables := [];
     child := fun _ _ => (out, err, status);
     spawned := [] |}.

(** a template without a hooks directory *)
Definition without_hooks : world :=
  {| hooks_listing := None; files := ∅; temp_count := 0; executables := [];
     child := fun _ _ => (EmptyString, EmptyString, 0); spawned := [] |}.

(** a JSON serializer on the reader and the printer above *)
Definition JsonSerializer : Serialization.Serializer :=
  {| Serialization.ser_serialize := dumps;
     Serialization.ser_deserialize payload :=
       match loads payload with
       | Ok (JDict d) => Ok d
       | Ok _ => Raise not_json
       | Raise e => Raise e
       end |}.

(** the facade of the tests: the default and the dummy serializer *)
Definition dummy_facade : Serialization.Facade :=
  {| Serialization.serializers :=
       <[ "dummy" := TestSerializers.DummySerializer ]> {[ "json" := JsonSerializer ]};
     Serialization.current_type := "json" |}.

(** a context the tests do not have, and the text [{"my_key": "my_val"}] *)
Definition other_context : gmap string json := {[ "other_key" := JStr "x" ]}.

Definition my_key_text : string :=
  "{" ++ PyStr.quoted "my_key" ++ ": " ++ PyStr.quoted "my_val" ++ "}".

(** the path of that hook, an output with [hello], [{"new_key": "v"}] and
    [bye] on a line each, and a context asking for a run in place *)
Definition script : string := "/template/hooks/pre_gen_project.sh".

Definition chatty_output : string :=
  "hello" ++ Re.nl ++ new_key_text ++ Re.nl ++ "bye".

Definition in_place_context : gmap string json :=
  {[ "_run_hook_in_place" := JBool true ]}.

(** three more outputs: two objects on one line, the object
    [{"new_key": "v"}] printed over three lines, and an object nested
    [n] objects deep *)
Definition two_objects_output : string := my_key_text ++ " " ++ new_key_text.

Definition pretty_output : string :=
  "{" ++ Re.nl ++ "  " ++ PyStr.quoted "new_key" ++ ": " ++ PyStr.quoted "v"
  ++ Re.nl ++ "}".

Fixpoint opened (n : nat) (s : string) : string :=
  match n with
  | O => s
  | S m => "{" ++ PyStr.quoted "a" ++ ": " ++ opened m s
  end.

Fixpoint closed (n : nat) : string :=
  match n with
  | O => EmptyString
  | S m => String "}" (closed m)
  end.

Definition nested (n : nat) (inner : string) : string :=
  opened n (inner ++ closed n).

Definition deep_output : string := nested 2000 (PyStr.quoted "x").

End Toy.

(** ** A second small platform, where reading and starting can fail

    The same world; a script that is not plain ASCII cannot be read
    ([UnicodeDecodeError], a [ValueError]), and a child cannot be started in
    a directory whose name holds a null character ([ValueError]) or is not
    absolute ([OSError]). *)

Module ToyStrict.

Definition nul : ascii := "000"%char.

Definition platform : Platform Toy.world := {|
  sys_platform := "linux";
  sys_executable := "/usr/bin/python";
  os_path_isdir := os_path_isdir (Platform := Toy.platform);
  os_listdir := os_listdir (Platform := Toy.platform);
  os_path_abspath := os_path_abspath (Platform := Toy.platform);
  io_open_read p w :=
    match Toy.files w !! p with
    | Some text =>
        if Toy.is_ascii_text text then (Ok text, w)
        else (Raise (ValueError "UnicodeDecodeError"), w)
    | None => (Raise (OSError p), w)
    end;
  NamedTemporaryFile := NamedTemporaryFile (Platform := Toy.platform);
  temp_write := temp_write (Platform := Toy.platform);
  make_executable := make_executable (Platform := Toy.platform);
  Popen_communicate command shell cwd input w :=
    if PyStr.mem nul cwd then (Raise (ValueError "embedded null byte"), w)
    else if negb (PyStr.startswith cwd "/") then (Raise (OSError cwd), w)
    else Popen_communicate (Platform := Toy.platform) command shell cwd input w;
  json_dumps := Toy.dumps;
  json_loads := Toy.loads;
  bytes_decode := bytes_decode (Platform := Toy.platform);
  Template_render := Template_render (Platform := Toy.platform);
|}.

(** a template whose hook is not plain ASCII *)
Definition with_binary_hook : Toy.world :=
  {| Toy.hooks_listing := Some ["pre_gen_project.sh"];
     Toy.files := {[ Toy.script := String "255"%char "echo" ]};
     Toy.temp_count := 0;
     Toy.executables := [];
     Toy.child := fun _ _ => (EmptyString, EmptyString, 0);
     Toy.spawned := [] |}.

(** a template with a shell hook listed before a Python hook *)
Definition python_script : string := "/template/hooks/pre_gen_project.py".

Definition with_two_hooks (out : string) : Toy.world :=
  {| Toy.hooks_listing := Some ["pre_gen_project.sh"; "pre_gen_project.py"];
     Toy.files := {[ Toy.script := "echo hello"; python_script := "print(1)" ]};
     Toy.temp_count := 0;
     Toy.executables := [];
     Toy.child := fun _ _ => (out, EmptyString, 0);
     Toy.spawned := [] |}.

End ToyStrict.

(** * Properties *)

(** ** Strings *)

#[local] Arguments String.append !s1 s2 : simpl nomatch.

Module StrFacts.

Lemma app_nil_r (s : string) : s ++ EmptyString = s.
Proof. induction s as [|c s IH]; simpl; [reflexivity | now rewrite IH]. Qed.

Lemma app_nil_l (s : string) : EmptyString ++ s = s.
Proof. reflexivity. Qed.

Lemma app_assoc (a b c : string) : (a ++ b) ++ c = a ++ (b ++ c).
Proof. induction a as [|x a IH]; simpl; [reflexivity | now rewrite IH]. Qed.

Lemma length_app (a b : string) :
  String.length (a ++ b) = (String.length a + String.length b)%nat.
Proof. induction a as [|x a IH]; simpl; [reflexivity | now rewrite IH]. Qed.

Lemma mem_app (c : ascii) (a b : string) :
  PyStr.mem c (a ++ b) = PyStr.mem c a || PyStr.mem c b.
Proof.
  induction a as [|x a IH]; simpl; [reflexivity |].
  rewrite IH. now rewrite orb_assoc.
Qed.

Lemma mem_cons_false (c x : ascii) (s : string) :
  PyStr.mem c (String x s) = false -> Ascii.eqb x c = false /\ PyStr.mem c s = false.
Proof. simpl. intros E. now apply orb_false_elim in E. Qed.

Lemma format_d_inj (a b : Z) : PyStr.format_d a = PyStr.format_d b -> a = b.
Proof.
  unfold PyStr.format_d. intros E.
  assert (nonnil : forall z, Z.to_int z <> Decimal.Pos Decimal.Nil
                             /\ Z.to_int z <> Decimal.Neg Decimal.Nil).
  { intros [|p|p]; simpl; split; try discriminate;
      intros Hp; injection Hp as Hp;
      now apply DecimalPos.Unsigned.to_uint_nonnil in Hp. }
  apply DecimalZ.to_int_inj.
  assert (Some (Z.to_int a) = Some (Z.to_int b)) as Hs.
  { rewrite <- (NilZero.isi (Z.to_int a)) by apply nonnil.
    rewrite <- (NilZero.isi (Z.to_int b)) by apply nonnil.
    now rewrite E. }
  now injection Hs.
Qed.

End StrFacts.

(** ** The matches of the regular expression *)

Module ReFacts.
Import Re.

Lemma upto_newline_id (a : string) :
  PyStr.mem newline a = false -> upto_newline a = a.
Proof.
  induction a as [|c a IH]; simpl; [reflexivity |].
  intros E. apply orb_false_elim in E as [Ec Ea].
  rewrite Ec. now rewrite IH.
Qed.

Lemma upto_newline_app (a b : string) :
  PyStr.mem newline a = false -> upto_newline (a ++ b) = a ++ upto_newline b.
Proof.
  induction a as [|c a IH]; simpl; [reflexivity |].
  intros E. apply orb_false_elim in E as [Ec Ea].
  rewrite Ec. now rewrite IH.
Qed.

Lemma upto_newline_nl (a b : string) :
  upto_newline (a ++ nl ++ b) = upto_newline a.
Proof.
  change (nl ++ b) with (String newline b).
  induction a as [|c a IH]; simpl; [reflexivity |].
  destruct (Ascii.eqb c newline); [reflexivity | now rewrite IH].
Qed.

Lemma upto_newline_mem (s : string) : PyStr.mem newline (upto_newline s) = false.
Proof.
  induction s as [|c s IH]; simpl; [reflexivity |].
  destruct (Ascii.eqb c newline) eqn:E; simpl; [reflexivity |].
  now rewrite E.
Qed.

(** a text is its first line, or its first line, a newline and the rest *)
Lemma first_line (s : string) :
  s = upto_newline s \/
  exists rest, s = upto_newline s ++ nl ++ rest /\
               (String.length rest < String.length s)%nat.
Proof.
  induction s as [|c s IH]; simpl; [now left |].
  destruct (Ascii.eqb c newline) eqn:E.
  - right. exists s. apply Ascii.eqb_eq in E. subst c. split; [reflexivity | lia].
  - destruct IH as [IH | (rest & IH & L)].
    + left. f_equal. exact IH.
    + right. exists rest. split; [simpl; f_equal; exact IH | lia].
Qed.

Lemma upto_last_brace_None (s : string) :
  upto_last_brace s = None <-> PyStr.mem "}" s = false.
Proof.
  induction s as [|c s IH]; simpl; [tauto |].
  destruct (upto_last_brace s) as [m|].
  - split; [discriminate |]. intros E. apply orb_false_elim in E as [_ E].
    apply IH in E. discriminate.
  - destruct IH as [IH _]. rewrite (IH eq_refl), orb_false_r.
    destruct (Ascii.eqb c "}"); split; congruence.
Qed.

Lemma upto_last_brace_app (y b : string) :
  PyStr.mem "}" b = false -> upto_last_brace (y ++ "}" ++ b) = Some (y ++ "}").
Proof.
  intros Hb. simpl. induction y as [|c y IH]; simpl.
  - apply upto_last_brace_None in Hb. now rewrite Hb.
  - now rewrite IH.
Qed.

Lemma upto_last_brace_Some (s m : string) :
  upto_last_brace s = Some m ->
  exists y b, m = y ++ "}" /\ s = m ++ b /\ PyStr.mem "}" b = false.
Proof.
  revert m. induction s as [|c s IH]; simpl; [discriminate |].
  intros m. destruct (upto_last_brace s) as [m'|] eqn:E.
  - intros [= <-]. destruct (IH m' eq_refl) as (y & b & -> & Hs & Hb).
    exists (String c y), b. simpl. now rewrite Hs at 1.
  - destruct (Ascii.eqb c "}") eqn:Ec; [| discriminate].
    intros [= <-]. apply Ascii.eqb_eq in Ec. subst c.
    exists EmptyString, s. apply upto_last_brace_None in E. now simpl.
Qed.

Lemma match_here_Some (s m : string) :
  match_here s = Some m ->
  exists mid b rest,
    m = "{" ++ mid ++ "}" /\ s = m ++ b ++ rest /\
    upto_newline s = m ++ b /\
    PyStr.mem newline (mid ++ "}" ++ b) = false /\ PyStr.mem "}" b = false.
Proof.
  destruct s as [|c r]; simpl; [discriminate |].
  destruct (Ascii.eqb c "{") eqn:Ec; [| discriminate].
  apply Ascii.eqb_eq in Ec. subst c.
  destruct (upto_last_brace (upto_newline r)) as [m'|] eqn:E; [| discriminate].
  intros [= <-].
  destruct (upto_last_brace_Some _ _ E) as (y & b & -> & Hs & Hb).
  pose proof (upto_newline_mem r) as Hn. rewrite Hs in Hn.
  destruct (first_line r) as [Hr | (rest & Hr & _)].
  - exists y, b, EmptyString. rewrite StrFacts.app_nil_r. simpl.
    rewrite StrFacts.app_assoc in Hn. repeat split; try assumption.
    + now rewrite <- Hs, <- Hr.
    + now rewrite <- Hs.
  - exists y, b, (nl ++ rest). simpl.
    rewrite StrFacts.app_assoc in Hn. repeat split; try assumption.
    + f_equal. rewrite <- StrFacts.app_assoc, <- Hs. exact Hr.
    + now rewrite <- Hs.
Qed.

Lemma mem_upto_newline (c : ascii) (s : string) :
  PyStr.mem c s = false -> PyStr.mem c (upto_newline s) = false.
Proof.
  induction s as [|x s IH]; simpl; [reflexivity |].
  intros E. apply orb_false_elim in E as [Ex Es].
  destruct (Ascii.eqb x newline); simpl; [reflexivity |].
  now rewrite Ex, IH.
Qed.

Lemma findall_from_skip (u v : string) (k : nat) :
  findall_from (String.length u + k) (u ++ v) = findall_from k v.
Proof. induction u as [|c u IH]; simpl; [reflexivity | exact IH]. Qed.

Lemma findall_from_no_closing (s : string) (k : nat) :
  PyStr.mem "}" s = false -> findall_from k s = [].
Proof.
  revert k. induction s as [|c s IH]; intros k E; [reflexivity |].
  apply StrFacts.mem_cons_false in E as [_ Es].
  destruct k as [|k]; [| simpl; now apply IH].
  cbn [findall_from match_here].
  apply (mem_upto_newline "}") in Es as Hl. apply upto_last_brace_None in Hl.
  rewrite Hl. destruct (Ascii.eqb c "{"); now apply IH.
Qed.

Lemma has_brace_pair_cons (c : ascii) (s : string) :
  has_brace_pair s -> has_brace_pair (String c s).
Proof.
  intros (x & y & z & -> & Hy). now exists (String c x), y, z.
Qed.

Lemma has_brace_pair_app (p s : string) :
  has_brace_pair s -> has_brace_pair (p ++ s).
Proof.
  intros Hs. induction p as [|c p IH]; [exact Hs |].
  now apply (has_brace_pair_cons c) in IH.
Qed.

Lemma findall_from_no_pair (s : string) (k : nat) :
  ~ has_brace_pair s -> findall_from k s = [].
Proof.
  revert k. induction s as [|c s IH]; intros k Hs; [reflexivity |].
  assert (~ has_brace_pair s) as Hs'
    by (intros Hp; apply Hs; now apply has_brace_pair_cons).
  destruct k as [|k]; [| simpl; now apply IH].
  cbn [findall_from].
  destruct (match_here (String c s)) as [m|] eqn:E; [| now apply IH].
  exfalso. apply Hs.
  destruct (match_here_Some _ _ E) as (mid & b & rest & -> & Hs2 & _ & Hn & _).
  exists EmptyString, mid, (b ++ rest). split.
  - rewrite Hs2. simpl. now rewrite !StrFacts.app_assoc.
  - rewrite StrFacts.mem_app in Hn. now apply orb_false_elim in Hn as [Hn _].
Qed.

Lemma match_here_pair (y z : string) :
  PyStr.mem newline y = false ->
  exists m, match_here ("{" ++ y ++ "}" ++ z) = Some m.
Proof.
  intros Hy. cbn [String.append match_here Ascii.eqb Bool.eqb andb].
  rewrite upto_newline_app by exact Hy.
  destruct (upto_last_brace (y ++ upto_newline (String "}" z))) as [m|] eqn:E;
    [now eexists |].
  apply upto_last_brace_None in E. rewrite StrFacts.mem_app in E.
  apply orb_false_elim in E as [_ E]. simpl in E. discriminate.
Qed.

Lemma findall_has_pair (s : string) :
  has_brace_pair s -> findall s <> [].
Proof.
  intros (x & y & z & -> & Hy). unfold findall.
  induction x as [|c x IH].
  - destruct (match_here_pair y z Hy) as [m E].
    change (EmptyString ++ "{" ++ y ++ "}" ++ z) with (String "{" (y ++ "}" ++ z)).
    change ("{" ++ y ++ "}" ++ z) with (String "{" (y ++ "}" ++ z)) in E.
    cbn [findall_from]. now rewrite E.
  - change (String c x ++ "{" ++ y ++ "}" ++ z)
      with (String c (x ++ "{" ++ y ++ "}" ++ z)).
    cbn [findall_from].
    destruct (match_here (String c (x ++ "{" ++ y ++ "}" ++ z))); [discriminate |].
    exact IH.
Qed.

Lemma findall_nil_iff (s : string) : findall s = [] <-> ~ has_brace_pair s.
Proof.
  split.
  - intros E Hp. now apply findall_has_pair in Hp.
  - apply findall_from_no_pair.
Qed.

Lemma match_here_line (c : ascii) (r y : string) :
  match_here (String c (r ++ nl ++ y)) = match_here (String c r).
Proof. cbn [match_here]. now rewrite upto_newline_nl. Qed.

Lemma match_here_length (c : ascii) (r m : string) :
  match_here (String c r) = Some m ->
  (String.length m - 1 <= String.length (upto_newline r))%nat.
Proof.
  cbn [match_here]. destruct (Ascii.eqb c "{"); [| discriminate].
  destruct (upto_last_brace (upto_newline r)) as [m'|] eqn:E; [| discriminate].
  intros [= <-]. destruct (upto_last_brace_Some _ _ E) as (y & b & _ & Hs & _).
  rewrite Hs, StrFacts.length_app. simpl. lia.
Qed.

(** the matches of a text are those of its lines, in order *)
Lemma findall_from_lines (x y : string) (k : nat) :
  (k <= String.length (upto_newline x))%nat ->
  findall_from k (x ++ nl ++ y) = (findall_from k x ++ findall_from 0 y)%list.
Proof.
  revert k. induction x as [|c x IH]; intros k Hk.
  - simpl in Hk. assert (k = 0%nat) as -> by lia. reflexivity.
  - change (String c x ++ nl ++ y) with (String c (x ++ nl ++ y)).
    destruct k as [|k].
    + cbn [findall_from]. rewrite match_here_line.
      destruct (match_here (String c x)) as [m|] eqn:E.
      * rewrite IH by (eapply match_here_length; exact E). reflexivity.
      * apply IH. lia.
    + cbn [findall_from]. apply IH.
      simpl in Hk. destruct (Ascii.eqb c newline); simpl in Hk; lia.
Qed.

Lemma findall_lines (x y : string) :
  findall (x ++ nl ++ y) = (findall x ++ findall y)%list.
Proof. apply findall_from_lines. lia. Qed.

(** on a line, the match runs from the first opening brace to the last
    closing brace *)
Lemma findall_line (a mid b : string) :
  PyStr.mem newline (mid ++ "}" ++ b) = false ->
  PyStr.mem "{" a = false ->
  PyStr.mem "}" b = false ->
  findall (a ++ "{" ++ mid ++ "}" ++ b) = ["{" ++ mid ++ "}"].
Proof.
  intros Hn Ha Hb. unfold findall. induction a as [|c a IH].
  - change (EmptyString ++ "{" ++ mid ++ "}" ++ b)
      with (String "{" (mid ++ "}" ++ b)).
    cbn [findall_from match_here Ascii.eqb Bool.eqb andb].
    rewrite upto_newline_id by exact Hn.
    rewrite upto_last_brace_app by exact Hb.
    f_equal.
    replace (String.length (String "{" (mid ++ "}")) - 1)%nat
      with (String.length (mid ++ "}") + 0)%nat by (simpl; lia).
    rewrite <- StrFacts.app_assoc, findall_from_skip.
    now apply findall_from_no_closing.
  - apply StrFacts.mem_cons_false in Ha as [Hc Ha].
    change (String c a ++ "{" ++ mid ++ "}" ++ b)
      with (String c (a ++ "{" ++ mid ++ "}" ++ b)).
    cbn [findall_from match_here]. rewrite Hc. now apply IH.
Qed.

(** a line has no match, or exactly the one of [findall_line] *)
Lemma findall_line_cases (line : string) :
  PyStr.mem newline line = false ->
  findall line = [] \/
  exists a mid b,
    line = a ++ "{" ++ mid ++ "}" ++ b /\
    PyStr.mem "{" a = false /\ PyStr.mem "}" b = false /\
    findall line = ["{" ++ mid ++ "}"].
Proof.
  induction line as [|c line IH]; intros Hn; [now left |].
  apply StrFacts.mem_cons_false in Hn as [Hc Hn].
  destruct (Ascii.eqb c "{") eqn:Ec.
  - apply Ascii.eqb_eq in Ec. subst c.
    destruct (upto_last_brace line) as [m|] eqn:E.
    + right. destruct (upto_last_brace_Some _ _ E) as (mid & b & -> & Hl & Hb).
      exists EmptyString, mid, b.
      assert (String "{" line = EmptyString ++ "{" ++ mid ++ "}" ++ b) as Hl'.
      { simpl. f_equal. rewrite Hl at 1. apply StrFacts.app_assoc. }
      repeat split; try assumption; try reflexivity.
      rewrite Hl'. apply findall_line; try assumption; try reflexivity.
      rewrite <- StrFacts.app_assoc, <- Hl. exact Hn.
    + left. apply upto_last_brace_None in E.
      unfold findall. cbn [findall_from match_here Ascii.eqb Bool.eqb andb].
      apply (mem_upto_newline "}") in E as E'. apply upto_last_brace_None in E'.
      rewrite E'. now apply findall_from_no_closing.
  - destruct (IH Hn) as [E | (a & mid & b & Hl & Ha & Hb & E)].
    + left. unfold findall. cbn [findall_from match_here]. rewrite Ec. exact E.
    + right. exists (String c a), mid, b. repeat split; try assumption.
      * simpl. f_equal. exact Hl.
      * simpl. now rewrite Ec, Ha.
      * unfold findall. cbn [findall_from match_here]. rewrite Ec. exact E.
Qed.

Lemma no_pair_after_newline (rest : string) :
  ~ has_brace_pair rest -> ~ has_brace_pair (nl ++ rest).
Proof.
  intros Hr (x & y & z & E & Hy). apply Hr.
  destruct x as [|c x]; [discriminate |].
  injection E as _ E. now exists x, y, z.
Qed.

Lemma mem_newline_line (a mid b : string) :
  PyStr.mem newline (a ++ mid ++ b) = false ->
  PyStr.mem newline (mid ++ "}" ++ b) = false.
Proof.
  rewrite !StrFacts.mem_app. intros E.
  apply orb_false_elim in E as [_ E]. apply orb_false_elim in E as [E1 E2].
  now rewrite E1, E2.
Qed.

Lemma line_assoc (a mid b after : string) :
  (a ++ "{" ++ mid ++ "}" ++ b) ++ after = a ++ ("{" ++ mid ++ "}") ++ b ++ after.
Proof.
  rewrite StrFacts.app_assoc. f_equal. simpl. f_equal.
  rewrite !StrFacts.app_assoc. reflexivity.
Qed.

Lemma last_braced_sound (text m : string) :
  last_braced text m -> last (findall text) = Some m.
Proof.
  intros [before a mid b after -> -> Hbefore Hafter Hn Ha Hb Hno].
  assert (last (findall (a ++ ("{" ++ mid ++ "}") ++ b ++ after))
          = Some ("{" ++ mid ++ "}")) as Hline.
  { rewrite <- line_assoc.
    destruct Hafter as [-> | [q ->]].
    - rewrite StrFacts.app_nil_r, findall_line; eauto using mem_newline_line.
    - rewrite findall_lines, findall_line; eauto using mem_newline_line.
      assert (findall q = []) as ->; [| reflexivity].
      apply findall_nil_iff. intros Hq. apply Hno.
      now apply has_brace_pair_app. }
  destruct Hbefore as [-> | [p ->]]; [exact Hline |].
  rewrite StrFacts.app_assoc, findall_lines, last_app.
  now rewrite Hline.
Qed.

Lemma last_braced_later_line (line rest m : string) :
  last_braced rest m -> last_braced (line ++ nl ++ rest) m.
Proof.
  intros [before a mid b after -> -> Hbefore Hafter Hn Ha Hb Hno].
  apply (LastBraced _ _ (line ++ nl ++ before) a mid b after); try assumption.
  - now rewrite !StrFacts.app_assoc.
  - reflexivity.
  - destruct Hbefore as [-> | [p ->]].
    + right. exists line. now rewrite StrFacts.app_nil_r.
    + right. exists (line ++ nl ++ p). now rewrite !StrFacts.app_assoc.
Qed.

Lemma last_braced_on_line (line after m : string) :
  PyStr.mem newline line = false ->
  ends_line after ->
  ~ has_brace_pair after ->
  last (findall line) = Some m ->
  last_braced (line ++ after) m.
Proof.
  intros Hn Hafter Hno Hm.
  destruct (findall_line_cases line Hn) as [E | (a & mid & b & Hl & Ha & Hb & E)];
    rewrite E in Hm; [discriminate |].
  injection Hm as <-.
  apply (LastBraced _ _ EmptyString a mid b after); try assumption.
  - rewrite Hl. apply line_assoc.
  - reflexivity.
  - now left.
  - rewrite Hl in Hn. rewrite !StrFacts.mem_app in *.
    destruct (PyStr.mem newline a), (PyStr.mem newline mid),
      (PyStr.mem newline b); simpl in *; congruence.
Qed.

Lemma last_braced_complete_bounded (n : nat) :
  forall text m,
    (String.length text <= n)%nat ->
    last (findall text) = Some m -> last_braced text m.
Proof.
  induction n as [|n IH]; intros text m Hlen Hm.
  - destruct text; [discriminate | simpl in Hlen; lia].
  - destruct (first_line text) as [Hl | (rest & Hl & Hr)].
    + rewrite <- (StrFacts.app_nil_r text).
      apply last_braced_on_line; try assumption.
      * rewrite Hl. apply upto_newline_mem.
      * now left.
      * intros (x & y & z & E & _). now destruct x.
    + rewrite Hl in Hm |- *. rewrite findall_lines, last_app in Hm.
      destruct (last (findall rest)) as [m'|] eqn:E.
      * injection Hm as ->. apply last_braced_later_line.
        apply IH; [lia | exact E].
      * apply last_braced_on_line; try assumption.
        -- apply upto_newline_mem.
        -- right. now exists rest.
        -- apply no_pair_after_newline. apply findall_nil_iff.
           now apply last_None.
Qed.

(** the last match of the scan is the last brace-delimited part *)
Theorem last_findall_iff (text m : string) :
  last (findall text) = Some m <-> last_braced text m.
Proof.
  split.
  - now apply (last_braced_complete_bounded (String.length text)).
  - apply last_braced_sound.
Qed.

End ReFacts.

(** ** The hooks *)

Section HookFacts.

Context {World : Type} `{Platform World}.

Lemma run_and_read_context_exited
    (script cwd : string) (context : gmap string json)
    (w w1 w' : World) (out err : string) (status : Z) :
  make_executable script w = (Ok tt, w1) ->
  Popen_communicate
    (if PyStr.endswith script ".py" then [sys_executable; script] else [script])
    (PyStr.startswith sys_platform "win") cwd (json_dumps context) w1
    = (Ok (out, err, status), w') ->
  run_and_read_context script cwd context w =
    if status =? 0 then (context_from_output context out, w')
    else (Raise (FailedHookException
                   ("Hook script failed (exit status: "
                    ++ PyStr.format_d status ++ ")")), w').
Proof.
  intros Hx Hp.
  unfold run_and_read_context, try_except_ValueError, __do_run_script,
    __get_script_command, bind, ret, raise, context_from_output, EXIT_SUCCESS.
  rewrite Hx, Hp.
  destruct (status =? 0); cbn [negb fst is_ValueError]; [| reflexivity].
  destruct (bytes_decode out) as [text|]; [| reflexivity].
  destruct (last (Re.findall text)) as [found|]; [| reflexivity].
  destruct (json_loads found) as [v|e]; [reflexivity |].
  now destruct (is_ValueError e).
Qed.

Lemma run_script_with_context_exited
    (script_path cwd : string) (context : gmap string json)
    (w w' : World) (out err : string) (status : Z) :
  hook_exited script_path cwd context w out err status w' ->
  run_script_with_context script_path cwd context w =
    if status =? 0 then (context_from_output context out, w')
    else (Raise (FailedHookException
                   ("Hook script failed (exit status: "
                    ++ PyStr.format_d status ++ ")")), w').
Proof.
  intros [script w1 w2 Hs Hx Hp].
  unfold run_script_with_context, bind. rewrite Hs.
  now apply (run_and_read_context_exited _ _ _ _ w2 _ _ err).
Qed.

(** what the output of a child that exited with status 0 comes to: a
    context, or an exception of [json.loads] that is no [ValueError] *)
Lemma context_from_output_outcomes (context : gmap string json) (out : string) :
  (exists new_context, context_from_output context out = Ok new_context) \/
  (exists text found e,
     bytes_decode out = Some text /\ last (Re.findall text) = Some found /\
     json_loads found = Raise e /\ is_ValueError e = false /\
     context_from_output context out = Raise e).
Proof.
  unfold context_from_output.
  destruct (bytes_decode out) as [text|] eqn:Ed; [| left; now eexists].
  destruct (last (Re.findall text)) as [found|] eqn:Ef; [| left; now eexists].
  destruct (json_loads found) as [v|e] eqn:Ev; [left; now eexists |].
  destruct (is_ValueError e) eqn:Ee; [left; now eexists |].
  right. now exists text, found, e.
Qed.

(** the hooks found are among the entries of the listing *)
Lemma find_hooks_fold_None
    (listing : list string) (name : string) (w : World) (r : gmap string string) :
  r !! name = None ->
  (forall f, f ∈ listing -> fst (PyStr.splitext (PyStr.basename f)) <> name) ->
  foldl (fun (r : gmap string string) f =>
           let basename := fst (PyStr.splitext (PyStr.basename f)) in
           if bool_decide (basename ∈ _HOOKS)
           then <[basename := os_path_abspath (PyStr.join "hooks" f) w]> r
           else r) r listing !! name = None.
Proof.
  revert r. induction listing as [|f listing IH]; intros r Hr Hno; [exact Hr |].
  cbn [foldl]. apply IH.
  - cbv zeta. case_bool_decide; [| exact Hr].
    rewrite lookup_insert_ne; [exact Hr |].
    apply Hno. now left.
  - intros g Hg. apply Hno. now right.
Qed.

End HookFacts.

(** ** The properties of the hooks *)

Section HookProperties.

Context {World : Type} `{Platform World}.

(** C1: when the standard output of a hook that exited with status 0 has,
    on some line, an opening brace followed by a closing brace, it has a
    last brace-delimited part [m], running from the first opening brace to
    the last closing brace of the last line that has such a pair;
    [run_script_with_context] hands [m] to [json.loads] and returns what it
    parses to, when it parses, as the new context. In particular, when that
    part is the text [{"new_key": "v"}] printed among other output and
    parsing to the context [{"new_key": "v"}], this context is returned. *)
Theorem C1_last_json_object_is_returned
    (script_path cwd : string) (context : gmap string json)
    (w w' : World) (out err text : string) :
  hook_exited script_path cwd context w out err 0 w' ->
  bytes_decode out = Some text ->
  Re.has_brace_pair text ->
  (exists m,
     Re.last_braced text m /\
     (forall m', Re.last_braced text m' -> m' = m) /\
     forall new_context,
       json_loads m = Ok new_context ->
       run_script_with_context script_path cwd context w = (Ok new_context, w')) /\
  (Re.last_braced text new_key_text ->
   json_loads new_key_text = Ok (JDict new_key_context) ->
   run_script_with_context script_path cwd context w
     = (Ok (JDict new_key_context), w')).
Proof.
  intros Hexit Hdec Hpair.
  assert (forall m c, Re.last_braced text m -> json_loads m = Ok c ->
            run_script_with_context script_path cwd context w = (Ok c, w')) as Hrun.
  { intros m c Hm Hc. apply ReFacts.last_findall_iff in Hm.
    rewrite (run_script_with_context_exited _ _ _ _ _ _ _ _ Hexit).
    unfold context_from_output. cbn [Z.eqb]. now rewrite Hdec, Hm, Hc. }
  split; [| intros Hm Hc; now apply (Hrun new_key_text)].
  destruct (last (Re.findall text)) as [m|] eqn:E.
  - exists m. split; [now apply ReFacts.last_findall_iff |]. split.
    + intros m' Hm'. apply ReFacts.last_findall_iff in Hm'. congruence.
    + intros c Hc. apply (Hrun m); [now apply ReFacts.last_findall_iff | exact Hc].
  - apply last_None in E. now apply ReFacts.findall_has_pair in Hpair.
Qed.

(** C3: when a hook exited with status 0 and its standard output has no
    brace-delimited part, or [json.loads] raises a [ValueError] on the last
    such part (or the output cannot be decoded at all),
    [run_script_with_context] returns the input context unchanged and raises
    nothing; and when [json.loads] raises on that part an exception that is
    no [ValueError], this exception is what [run_script_with_context]
    raises. *)
Theorem C3_unreadable_output_keeps_context
    (script_path cwd : string) (context : gmap string json)
    (w w' : World) (out err : string) :
  hook_exited script_path cwd context w out err 0 w' ->
  ((bytes_decode out = None \/
    exists text, bytes_decode out = Some text /\
      (~ Re.has_brace_pair text \/
       exists m message,
         Re.last_braced text m /\ json_loads m = Raise (ValueError message))) ->
   run_script_with_context script_path cwd context w = (Ok (JDict context), w')) /\
  (forall text m e,
     bytes_decode out = Some text -> Re.last_braced text m ->
     json_loads m = Raise e -> is_ValueError e = false ->
     run_script_with_context script_path cwd context w = (Raise e, w')).
Proof.
  intros Hexit.
  rewrite (run_script_with_context_exited _ _ _ _ _ _ _ _ Hexit).
  unfold context_from_output. cbn [Z.eqb]. split.
  - intros [-> | (text & -> & [Hno | (m & message & Hm & Hp)])]; [reflexivity | |].
    + apply ReFacts.findall_nil_iff in Hno. now rewrite Hno.
    + apply ReFacts.last_findall_iff in Hm. now rewrite Hm, Hp.
  - intros text m e -> Hm Hp He.
    apply ReFacts.last_findall_iff in Hm. now rewrite Hm, Hp, He.
Qed.

(** C4: when the child process of a hook found by [run_hook] exits with a
    non-zero status, [run_hook] raises [FailedHookException] with the
    message [Hook script failed (exit status: N)], N being the decimal text
    of that status and of no other; when it exits with status 0, [run_hook]
    raises no exception of its own: it returns a context, or lets through
    an exception that [json.loads] raised on the output and that is no
    [ValueError]. *)
Theorem C4_nonzero_exit_raises_FailedHookException
    (hook_name project_dir script_path : string) (context : gmap string json)
    (hooks : gmap string string) (w w0 w' : World) (out err : string) (status : Z) :
  find_hooks w = (Ok hooks, w0) ->
  hooks !! hook_name = Some script_path ->
  hook_exited script_path project_dir context w0 out err status w' ->
  (status <> 0 ->
   run_hook hook_name project_dir context w
     = (Raise (FailedHookException
                 ("Hook script failed (exit status: "
                  ++ PyStr.format_d status ++ ")")), w') /\
   forall other, PyStr.format_d other = PyStr.format_d status -> other = status) /\
  (status = 0 ->
   (exists new_context,
      run_hook hook_name project_dir context w = (Ok new_context, w')) \/
   (exists found e,
      json_loads found = Raise e /\ is_ValueError e = false /\
      run_hook hook_name project_dir context w = (Raise e, w'))).
Proof.
  intros Hfind Hlook Hexit.
  assert (run_hook hook_name project_dir context w
          = run_script_with_context script_path project_dir context w0) as ->.
  { unfold run_hook, bind. now rewrite Hfind, Hlook. }
  rewrite (run_script_with_context_exited _ _ _ _ _ _ _ _ Hexit).
  split.
  - intros Hne. apply Z.eqb_neq in Hne. rewrite Hne.
    split; [reflexivity | intros other; apply StrFacts.format_d_inj].
  - intros ->. cbn [Z.eqb].
    destruct (context_from_output_outcomes context out)
      as [(c & ->) | (text & found & e & _ & _ & He & Hv & ->)].
    + left. now exists c.
    + right. now exists found, e.
Qed.

(** C8: [find_hooks] returns the empty mapping, and no error, when there is
    no [hooks] directory; and when the directory is absent, or is listed
    and none of its files has the name [hook_name] once the extension is
    taken off, [run_hook] returns the context it was given, unchanged and
    without error. *)
Theorem C8_missing_hook_is_skipped
    (hook_name project_dir : string) (context : gmap string json) (w : World) :
  (os_path_isdir "hooks" w = false -> find_hooks w = (Ok ∅, w)) /\
  (os_path_isdir "hooks" w = false \/
   (exists listing w',
      os_listdir "hooks" w = (Ok listing, w') /\
      forall f, f ∈ listing -> fst (PyStr.splitext (PyStr.basename f)) <> hook_name) ->
   fst (run_hook hook_name project_dir context w) = Ok (JDict context)).
Proof.
  split.
  - intros Hd. unfold find_hooks. now rewrite Hd.
  - intros Hno. unfold run_hook, bind, find_hooks.
    destruct (os_path_isdir "hooks" w) eqn:Hd; cbn [negb].
    + destruct Hno as [Hno | (listing & w' & Hl & Hno)]; [discriminate |].
      unfold bind. rewrite Hl.
      rewrite find_hooks_fold_None; [reflexivity | apply lookup_empty | exact Hno].
    + now rewrite lookup_empty.
Qed.

(** C9: the outcome of [run_script_with_context] is a function of the
    standard output and the exit status of the child (and of the context
    given): two runs whose children print the same standard output and exit
    with the same status return the same context or raise the same
    exception, whatever they print on standard error. *)
Theorem C9_stderr_is_never_examined
    (script_path1 cwd1 script_path2 cwd2 : string) (context : gmap string json)
    (w1 w1' w2 w2' : World) (out err1 err2 : string) (status : Z) :
  hook_exited script_path1 cwd1 context w1 out err1 status w1' ->
  hook_exited script_path2 cwd2 context w2 out err2 status w2' ->
  fst (run_script_with_context script_path1 cwd1 context w1)
  = fst (run_script_with_context script_path2 cwd2 context w2) /\
  (status = 0 ->
   fst (run_script_with_context script_path1 cwd1 context w1)
   = context_from_output context out).
Proof.
  intros H1 H2.
  rewrite (run_script_with_context_exited _ _ _ _ _ _ _ _ H1).
  rewrite (run_script_with_context_exited _ _ _ _ _ _ _ _ H2).
  split; [now destruct (status =? 0) | now intros ->].
Qed.

(** C10: when the context maps the key [_run_hook_in_place] to a truthy
    value, [run_script_with_context] makes the original script executable
    and spawns it from the world as it is, nothing being read, created or
    rendered, and its outcome is the one of that child. For every other
    context the script is read (a failure to read it is the outcome), a
    temporary file is created with the extension of the script as its
    suffix (so that its name ends with that extension, as the names of
    [tempfile] end with the suffix asked for), the text rendered with the
    context is written to it, and the temporary file is the one made
    executable and spawned: the outcome is the one of this other child. *)
Theorem C10_run_in_place_or_rendered
    (script_path cwd : string) (context : gmap string json) (w : World) :
  ((exists v, context !! "_run_hook_in_place" = Some v /\ truthy v = true) ->
   forall w1 w' out err status,
     make_executable script_path w = (Ok tt, w1) ->
     Popen_communicate
       (if PyStr.endswith script_path ".py" then [sys_executable; script_path]
        else [script_path])
       (PyStr.startswith sys_platform "win") cwd (json_dumps context) w1
       = (Ok (out, err, status), w') ->
     run_script_with_context script_path cwd context w
     = if status =? 0 then (context_from_output context out, w')
       else (Raise (FailedHookException
                      ("Hook script failed (exit status: "
                       ++ PyStr.format_d status ++ ")")), w')) /\
  (~ (exists v, context !! "_run_hook_in_place" = Some v /\ truthy v = true) ->
   (forall e w1,
      io_open_read script_path w = (Raise e, w1) ->
      run_script_with_context script_path cwd context w = (Raise e, w1)) /\
   forall contents w1 temp_name w2 output w3 w4 w' out err status,
     io_open_read script_path w = (Ok contents, w1) ->
     NamedTemporaryFile (snd (PyStr.splitext script_path)) w1 = (Ok temp_name, w2) ->
     Template_render contents context = Ok output ->
     temp_write temp_name output w2 = (Ok tt, w3) ->
     make_executable temp_name w3 = (Ok tt, w4) ->
     Popen_communicate
       (if PyStr.endswith temp_name ".py" then [sys_executable; temp_name]
        else [temp_name])
       (PyStr.startswith sys_platform "win") cwd (json_dumps context) w4
       = (Ok (out, err, status), w') ->
     run_script_with_context script_path cwd context w
     = (if status =? 0 then (context_from_output context out, w')
        else (Raise (FailedHookException
                       ("Hook script failed (exit status: "
                        ++ PyStr.format_d status ++ ")")), w')) /\
     ((forall suffix v name v',
         NamedTemporaryFile suffix v = (Ok name, v') ->
         PyStr.endswith name suffix = true) ->
      PyStr.endswith temp_name (snd (PyStr.splitext script_path)) = true)).
Proof.
  assert (run_in_place context = true <->
          exists v, context !! "_run_hook_in_place" = Some v /\ truthy v = true)
    as Hflag.
  { unfold run_in_place.
    destruct (context !! "_run_hook_in_place") as [v|].
    - split; [intros Hv; now exists v | now intros (v' & [= <-] & Hv)].
    - split; [discriminate | now intros (v & Hv & _)]. }
  split.
  - intros Hin w1 w' out err status Hx Hp. apply Hflag in Hin.
    unfold run_script_with_context, script_to_run, bind, ret. rewrite Hin.
    now apply (run_and_read_context_exited _ _ _ _ w1 _ _ err).
  - intros Hout.
    assert (run_in_place context = false) as Hin.
    { destruct (run_in_place context); [| reflexivity].
      exfalso. now apply Hout, Hflag. }
    split.
    + intros e w1 Hr.
      unfold run_script_with_context, script_to_run, __create_renderable_hook, bind.
      now rewrite Hin, Hr.
    + intros contents w1 temp_name w2 output w3 w4 w' out err status
        Hr Ht Hj Hw Hx Hp.
      split; [| intros Hsuffix; exact (Hsuffix _ _ _ _ Ht)].
      unfold run_script_with_context, script_to_run, __create_renderable_hook,
        bind, ret.
      rewrite Hin, Hr, Ht, Hj, Hw.
      now apply (run_and_read_context_exited _ _ _ _ w4 _ _ err).
Qed.

End HookProperties.

(** ** The hooks on the small platform *)

Module ToyRuns.

Lemma exited (context : gmap string json) (out err : string) (status : Z) :
  run_in_place context = false ->
  exists w',
    hook_exited Toy.script "/proj" context (Toy.with_hook out err status) out err status w'.
Proof.
  intros Hin. eexists.
  eapply (HookExited _ _ _ _ _ _ _ _ "/tmp/tmp0.sh").
  - unfold script_to_run. rewrite Hin. reflexivity.
  - reflexivity.
  - reflexivity.
Defined.

Lemma chatty_last_braced : Re.last_braced Toy.chatty_output new_key_text.
Proof.
  apply (Re.LastBraced _ _ ("hello" ++ Re.nl) EmptyString
           (PyStr.quoted "new_key" ++ ": " ++ PyStr.quoted "v") EmptyString
           (Re.nl ++ "bye")); try reflexivity.
  - right. now exists "hello".
  - right. now exists "bye".
  - apply ReFacts.findall_nil_iff. reflexivity.
Defined.

End ToyRuns.

Lemma C1_witness :
  fst (run_script_with_context Toy.script "/proj" TestSerializers.object
         (Toy.with_hook Toy.chatty_output EmptyString 0))
  = Ok (JDict new_key_context).
Proof.
  destruct (ToyRuns.exited TestSerializers.object Toy.chatty_output EmptyString 0
              eq_refl) as [w' Hexit].
  destruct (C1_last_json_object_is_returned _ _ _ _ _ _ _ Toy.chatty_output
              Hexit eq_refl) as [_ Hnew].
  - exists ("hello" ++ Re.nl), (PyStr.quoted "new_key" ++ ": " ++ PyStr.quoted "v"),
      (Re.nl ++ "bye"). split; reflexivity.
  - rewrite Hnew; [reflexivity | exact ToyRuns.chatty_last_braced | reflexivity].
Defined.

(** C1, as first stated, fails: a hook that prints the context it was given
    and then [{"new_key": "v"}] on the same line, or that prints
    [{"new_key": "v"}] over three lines, exits with status 0 and has a last
    JSON object in its output, which parses to the context
    [{"new_key": "v"}]; yet [run_script_with_context] returns the context it
    was given. And a hook that prints this object on a line of its own and
    exits with status 1 has no context returned at all. *)
Lemma C1_counterexample :
  (Toy.two_objects_output = Toy.my_key_text ++ " " ++ new_key_text /\
   Toy.loads new_key_text = Ok (JDict new_key_context) /\
   fst (run_script_with_context Toy.script "/proj" TestSerializers.object
          (Toy.with_hook Toy.two_objects_output EmptyString 0))
   = Ok (JDict TestSerializers.object)) /\
  (Toy.loads Toy.pretty_output = Ok (JDict new_key_context) /\
   fst (run_script_with_context Toy.script "/proj" TestSerializers.object
          (Toy.with_hook Toy.pretty_output EmptyString 0))
   = Ok (JDict TestSerializers.object)) /\
  fst (run_script_with_context Toy.script "/proj" TestSerializers.object
         (Toy.with_hook Toy.chatty_output EmptyString 1))
  = Raise (FailedHookException "Hook script failed (exit status: 1)") /\
  JDict TestSerializers.object <> JDict new_key_context.
Proof.
  repeat split; try reflexivity.
  intros E.
  apply (f_equal (fun j => match j with JDict d => d !! "new_key" | _ => None end))
    in E.
  discriminate E.
Qed.

Lemma C3_witness :
  fst (run_script_with_context Toy.script "/proj" TestSerializers.object
         (Toy.with_hook "hello world" EmptyString 0))
  = Ok (JDict TestSerializers.object).
Proof.
  destruct (ToyRuns.exited TestSerializers.object "hello world" EmptyString 0
              eq_refl) as [w' Hexit].
  destruct (C3_unreadable_output_keeps_context _ _ _ _ _ _ _ Hexit) as [Hkeep _].
  rewrite Hkeep; [reflexivity |].
  right. exists "hello world". split; [reflexivity |]. left.
  apply ReFacts.findall_nil_iff. reflexivity.
Defined.

(** C3, as first stated, fails: a hook that exits with status 0 after
    printing an object nested two thousand objects deep has a
    brace-delimited output that [json.loads] fails to parse, with a
    [RecursionError]; this is no [ValueError], and [run_script_with_context]
    raises it instead of returning the context it was given. *)
Lemma C3_counterexample :
  last (Re.findall Toy.deep_output) = Some Toy.deep_output /\
  Toy.loads Toy.deep_output = Raise Toy.too_deep /\
  fst (run_script_with_context Toy.script "/proj" TestSerializers.object
         (Toy.with_hook Toy.deep_output EmptyString 0))
  = Raise (RecursionError
             "maximum recursion depth exceeded while decoding a JSON object from a unicode string").
Proof. repeat split; vm_compute; reflexivity. Qed.

Lemma C4_witness :
  fst (run_hook "pre_gen_project" "/proj" TestSerializers.object
         (Toy.with_hook "oops" EmptyString 1))
  = Raise (FailedHookException "Hook script failed (exit status: 1)").
Proof.
  destruct (ToyRuns.exited TestSerializers.object "oops" EmptyString 1 eq_refl)
    as [w' Hexit].
  assert (find_hooks (Toy.with_hook "oops" EmptyString 1)
          = (Ok {[ "pre_gen_project" := Toy.script ]},
             Toy.with_hook "oops" EmptyString 1)) as Hfind by reflexivity.
  destruct (C4_nonzero_exit_raises_FailedHookException
              "pre_gen_project" "/proj" Toy.script TestSerializers.object
              _ _ _ _ _ _ _ Hfind eq_refl Hexit) as [Hfail _].
  destruct Hfail as [Hfail _]; [discriminate |].
  rewrite Hfail. reflexivity.
Defined.

Lemma C8_witness :
  find_hooks Toy.without_hooks = (Ok ∅, Toy.without_hooks) /\
  fst (run_hook "post_gen_project" "/proj" TestSerializers.object
         (Toy.with_hook "oops" EmptyString 1))
  = Ok (JDict TestSerializers.object).
Proof.
  split.
  - apply (C8_missing_hook_is_skipped "pre_gen_project" "/proj" ∅). reflexivity.
  - apply C8_missing_hook_is_skipped. right.
    exists ["README.md"; "pre_gen_project.sh"], (Toy.with_hook "oops" EmptyString 1).
    split; [reflexivity |].
    intros f Hf. apply list_elem_of_In in Hf.
    destruct Hf as [<- | [<- | []]]; discriminate.
Defined.

Lemma C9_witness :
  fst (run_script_with_context Toy.script "/proj" TestSerializers.object
         (Toy.with_hook Toy.chatty_output EmptyString 0))
  = fst (run_script_with_context Toy.script "/proj" TestSerializers.object
           (Toy.with_hook Toy.chatty_output "warning: deprecated" 0)).
Proof.
  destruct (ToyRuns.exited TestSerializers.object Toy.chatty_output
              EmptyString 0 eq_refl) as [w1 H1].
  destruct (ToyRuns.exited TestSerializers.object Toy.chatty_output
              "warning: deprecated" 0 eq_refl) as [w2 H2].
  exact (proj1 (C9_stderr_is_never_examined _ _ _ _ _ _ _ _ _ _ _ _ _ H1 H2)).
Defined.

Lemma C10_witness :
  (let w' := snd (run_script_with_context Toy.script "/proj" Toy.in_place_context
                    (Toy.with_hook "done" EmptyString 0)) in
   Toy.spawned w' = [[Toy.script]] /\
   Toy.files w' = Toy.files (Toy.with_hook "done" EmptyString 0)) /\
  (let w' := snd (run_script_with_context Toy.script "/proj" TestSerializers.object
                    (Toy.with_hook "done" EmptyString 0)) in
   Toy.spawned w' = [["/tmp/tmp0.sh"]] /\
   Toy.files w' !! "/tmp/tmp0.sh" = Some "echo hello" /\
   PyStr.endswith "/tmp/tmp0.sh" (snd (PyStr.splitext Toy.script)) = true).
Proof.
  split.
  - destruct (C10_run_in_place_or_rendered Toy.script "/proj"
                Toy.in_place_context (Toy.with_hook "done" EmptyString 0))
      as [Hin _].
    assert (exists v, Toy.in_place_context !! "_run_hook_in_place" = Some v /\
                      truthy v = true) as Hflag
      by (exists (JBool true); split; reflexivity).
    cbv zeta.
    rewrite (Hin Hflag _ _ "done" EmptyString 0 eq_refl eq_refl).
    split; reflexivity.
  - destruct (C10_run_in_place_or_rendered Toy.script "/proj"
                TestSerializers.object (Toy.with_hook "done" EmptyString 0))
      as [_ Hout].
    destruct Hout as [_ Hrendered].
    + intros (v & Hv & _). discriminate Hv.
    + cbv zeta.
      destruct (Hrendered "echo hello" _ "/tmp/tmp0.sh" _ "echo hello" _ _ _
                  "done" EmptyString 0 eq_refl eq_refl eq_refl eq_refl eq_refl
                  eq_refl) as [-> _].
      repeat split; reflexivity.
Defined.

(** ** The envelope *)

Module EnvelopeFacts.
Import Serialization.

Lemma app_inv_length (a a' b b' : string) :
  a ++ b = a' ++ b' -> String.length a = String.length a' -> a = a' /\ b = b'.
Proof.
  revert a'. induction a as [|c a IH]; intros [|c' a'] E L; try discriminate.
  - now split.
  - simpl in E, L. injection E as -> E. injection L as L.
    destruct (IH a' E L) as [-> ->]. now split.
Qed.

Lemma tag_start_char (c : ascii) : is_tag_start c = true -> is_tag_char c = true.
Proof. unfold is_tag_char. now intros ->. Qed.

Lemma all_tag_chars_mem (c : ascii) (t : string) :
  all_tag_chars t = true -> is_tag_char c = false -> PyStr.mem c t = false.
Proof.
  intros Ht Hc. induction t as [|x t IH]; [reflexivity |].
  simpl in Ht. apply andb_prop in Ht as [Hx Ht]. simpl. rewrite (IH Ht).
  destruct (Ascii.eqb_spec x c) as [-> |]; [congruence | reflexivity].
Qed.

Lemma valid_tag_chars (t : string) : valid_tag t = true -> all_tag_chars t = true.
Proof.
  destruct t as [|c r]; [discriminate |]. simpl.
  intros E. apply andb_prop in E as [Hc Hr]. now rewrite (tag_start_char c Hc).
Qed.

Lemma valid_tag_no_dollar (t : string) : valid_tag t = true -> PyStr.mem "$" t = false.
Proof. intros Ht. apply all_tag_chars_mem; [now apply valid_tag_chars | reflexivity]. Qed.

Lemma span_tag_app (r s : string) (b : ascii) :
  all_tag_chars r = true -> is_tag_char b = false ->
  span_tag (r ++ String b s) = (r, String b s).
Proof.
  intros Hr Hb. induction r as [|c r IH]; simpl.
  - now rewrite Hb.
  - simpl in Hr. apply andb_prop in Hr as [Hc Hr]. now rewrite Hc, (IH Hr).
Qed.

Lemma span_tag_spec (s run rest : string) :
  span_tag s = (run, rest) -> s = run ++ rest /\ all_tag_chars run = true.
Proof.
  revert run rest. induction s as [|c s IH]; intros run rest; simpl.
  - now intros [= <- <-].
  - destruct (is_tag_char c) eqn:Hc.
    + destruct (span_tag s) as [run' rest'] eqn:E. intros [= <- <-].
      destruct (IH _ _ eq_refl) as [-> Hrun]. simpl. now rewrite Hc, Hrun.
    + now intros [= <- <-].
Qed.

Lemma tag_bar_inj (t t' p p' : string) :
  all_tag_chars t = true -> all_tag_chars t' = true ->
  t ++ "|" ++ p = t' ++ "|" ++ p' -> t = t' /\ p = p'.
Proof.
  revert t'. induction t as [|c t IH]; intros [|c' t'] Ht Ht' E;
    simpl in E, Ht, Ht'.
  - injection E as ->. now split.
  - injection E as <- _. discriminate.
  - injection E as -> _. discriminate.
  - injection E as -> E.
    apply andb_prop in Ht as [_ Ht]. apply andb_prop in Ht' as [_ Ht'].
    destruct (IH t' Ht Ht' E) as [-> ->]. now split.
Qed.

Lemma find_head_here (t p : string) :
  valid_tag t = true -> find_head (t ++ "|" ++ p) = Some (t, p).
Proof.
  destruct t as [|c run]; [discriminate |]. simpl.
  intros E. apply andb_prop in E as [Hc Hrun].
  rewrite Hc, (span_tag_app run p "|" Hrun eq_refl). reflexivity.
Qed.

Lemma find_head_cons (c : ascii) (r : string) :
  find_head (String c r) = find_head r \/
  exists run payload,
    find_head (String c r) = Some (String c run, payload) /\
    r = run ++ "|" ++ payload /\ valid_tag (String c run) = true.
Proof.
  cbn [find_head]. destruct (is_tag_start c) eqn:Hc; [| now left].
  destruct (span_tag r) as [run rest] eqn:E.
  destruct rest as [|b payload]; [now left |].
  destruct (Ascii.eqb_spec b "|") as [-> |]; [| now left].
  right. exists run, payload. destruct (span_tag_spec _ _ _ E) as [Hr Hrun].
  split; [reflexivity | split; [exact Hr |]].
  cbn [valid_tag]. now rewrite Hc, Hrun.
Qed.

Lemma find_head_leftmost (s t p : string) :
  find_head s = Some (t, p) ->
  exists x,
    s = x ++ t ++ "|" ++ p /\ valid_tag t = true /\
    forall x1 t1 p1,
      s = x1 ++ t1 ++ "|" ++ p1 -> valid_tag t1 = true ->
      (String.length x <= String.length x1)%nat.
Proof.
  revert t p. induction s as [|c r IH]; intros t p; [discriminate |].
  destruct (find_head_cons c r) as [E | (run & payload & E & Hr & Hv)]; rewrite E.
  - intros Hf. destruct (IH _ _ Hf) as (x & Hx & Hv & Hmin).
    exists (String c x). split; [simpl; f_equal; exact Hx | split; [exact Hv |]].
    intros [|c1 x1] t1 p1 E1 Hv1.
    + exfalso. change (EmptyString ++ t1 ++ "|" ++ p1) with (t1 ++ "|" ++ p1) in E1.
      pose proof (find_head_here t1 p1 Hv1) as Hh.
      rewrite <- E1, E, Hf in Hh. injection Hh as <- <-.
      apply (f_equal String.length) in E1, Hx.
      repeat (rewrite ?StrFacts.length_app in E1, Hx; simpl in E1, Hx). lia.
    + change (String c1 x1 ++ t1 ++ "|" ++ p1)
        with (String c1 (x1 ++ t1 ++ "|" ++ p1)) in E1.
      injection E1 as <- E1. simpl.
      specialize (Hmin _ _ _ E1 Hv1). lia.
  - intros [= <- <-]. exists EmptyString. split; [simpl; f_equal; exact Hr |].
    split; [exact Hv |]. intros. simpl. lia.
Qed.

Lemma find_head_complete (x t p : string) :
  valid_tag t = true -> is_Some (find_head (x ++ t ++ "|" ++ p)).
Proof.
  intros Hv. induction x as [|c x IH].
  - change (EmptyString ++ t ++ "|" ++ p) with (t ++ "|" ++ p).
    now rewrite find_head_here.
  - change (String c x ++ t ++ "|" ++ p) with (String c (x ++ t ++ "|" ++ p)).
    destruct (find_head_cons c (x ++ t ++ "|" ++ p)) as [E | (run & payload & E & _)];
      rewrite E; [exact IH | now eexists].
Qed.

(** the scan finds the leftmost tag followed by a bar *)
Lemma find_head_unique (x t p : string) :
  valid_tag t = true ->
  (forall x1 t1 p1,
     x ++ t ++ "|" ++ p = x1 ++ t1 ++ "|" ++ p1 -> valid_tag t1 = true ->
     (String.length x <= String.length x1)%nat) ->
  find_head (x ++ t ++ "|" ++ p) = Some (t, p).
Proof.
  intros Hv Hmin.
  destruct (find_head_complete x t p Hv) as [[t' p'] E]. rewrite E.
  destruct (find_head_leftmost _ _ _ E) as (x' & Hx & Hv' & Hmin').
  pose proof (Hmin _ _ _ Hx Hv') as L1.
  pose proof (Hmin' _ _ _ eq_refl Hv) as L2.
  destruct (app_inv_length _ _ _ _ Hx ltac:(lia)) as [-> Ht].
  destruct (tag_bar_inj _ _ _ _ (valid_tag_chars _ Hv) (valid_tag_chars _ Hv') Ht)
    as [-> ->].
  reflexivity.
Qed.

Lemma before_last_dollar_None (s : string) :
  before_last_dollar s = None <-> PyStr.mem "$" s = false.
Proof.
  induction s as [|c s IH]; [now split |]. cbn [before_last_dollar PyStr.mem].
  destruct (before_last_dollar s) as [p|].
  - split; [discriminate |]. intros E. apply orb_false_elim in E as [_ E].
    apply IH in E. discriminate E.
  - destruct IH as [IH _]. rewrite (IH eq_refl), orb_false_r.
    destruct (Ascii.eqb c "$"); now split.
Qed.

Lemma before_last_dollar_app (p after : string) :
  PyStr.mem "$" after = false -> before_last_dollar (p ++ "$" ++ after) = Some p.
Proof.
  intros Hafter. apply before_last_dollar_None in Hafter.
  induction p as [|c p IH].
  - change (EmptyString ++ "$" ++ after) with (String "$" after).
    cbn [before_last_dollar]. now rewrite Hafter.
  - change (String c p ++ "$" ++ after) with (String c (p ++ "$" ++ after)).
    cbn [before_last_dollar]. now rewrite IH.
Qed.

Lemma before_last_dollar_Some (s p : string) :
  before_last_dollar s = Some p ->
  exists after, s = p ++ "$" ++ after /\ PyStr.mem "$" after = false.
Proof.
  revert p. induction s as [|c s IH]; intros p; [discriminate |].
  cbn [before_last_dollar].
  destruct (before_last_dollar s) as [q|] eqn:E.
  - intros [= <-]. destruct (IH q eq_refl) as (after & -> & Hafter).
    now exists after.
  - destruct (Ascii.eqb_spec c "$") as [-> |]; [| discriminate].
    intros [= <-]. exists s. split; [reflexivity |].
    now apply before_last_dollar_None.
Qed.

(** what follows the first bar of a text ends with what follows any bar *)
Lemma first_bar_rest (a b run payload : string) :
  a ++ "|" ++ b = run ++ "|" ++ payload -> PyStr.mem "|" run = false ->
  exists y, payload = y ++ b.
Proof.
  revert a. induction run as [|c run IH]; intros [|c' a] E Hrun.
  - injection E as <-. now exists EmptyString.
  - injection E as _ <-. exists (a ++ "|"). now rewrite StrFacts.app_assoc.
  - injection E as <- _. discriminate Hrun.
  - change (String c' a ++ "|" ++ b) with (String c' (a ++ "|" ++ b)) in E.
    change (String c run ++ "|" ++ payload)
      with (String c (run ++ "|" ++ payload)) in E.
    injection E as _ E. apply StrFacts.mem_cons_false in Hrun as [_ Hrun].
    exact (IH a E Hrun).
Qed.

(** the payload after the first tag followed by a bar holds what follows
    any later tag and bar *)
Lemma find_head_rest (x t r t' rest' : string) :
  valid_tag t = true ->
  find_head (x ++ t ++ "|" ++ r) = Some (t', rest') -> exists y, rest' = y ++ r.
Proof.
  intros Hv. induction x as [|c x IH].
  - change (EmptyString ++ t ++ "|" ++ r) with (t ++ "|" ++ r).
    rewrite (find_head_here t r Hv). intros [= <- <-]. now exists EmptyString.
  - change (String c x ++ t ++ "|" ++ r) with (String c (x ++ t ++ "|" ++ r)).
    destruct (find_head_cons c (x ++ t ++ "|" ++ r))
      as [E | (run & payload & E & Hr & Hrun)]; rewrite E; [exact IH |].
    intros [= <- <-].
    apply valid_tag_chars in Hrun. cbn [all_tag_chars] in Hrun.
    apply andb_prop in Hrun as [_ Hrun].
    apply (first_bar_rest (x ++ t) r run payload).
    + now rewrite StrFacts.app_assoc.
    + now apply all_tag_chars_mem.
Qed.

(** the scan and the description of the envelope agree *)
Theorem last_envelope_iff (s t p : string) :
  last_envelope s = Some (t, p) <-> last_enveloped s t p.
Proof.
  unfold last_envelope. split.
  - destruct (find_head s) as [[tag rest]|] eqn:E; [| discriminate].
    destruct (before_last_dollar rest) as [payload|] eqn:Ep; [| discriminate].
    intros [= <- <-].
    destruct (find_head_leftmost _ _ _ E) as (x & Hx & Hv & Hmin).
    destruct (before_last_dollar_Some _ _ Ep) as (after & -> & Hafter).
    now apply (LastEnveloped s tag payload x after).
  - intros [x after Hs Hv Hmin Hafter]. subst s.
    rewrite (find_head_unique x t (p ++ "$" ++ after) Hv Hmin).
    now rewrite before_last_dollar_app.
Qed.

Theorem last_envelope_None_iff (s : string) :
  last_envelope s = None <-> ~ contains_envelope s.
Proof.
  split.
  - intros E (pre & u & post & -> & t & p & Hv & ->).
    unfold last_envelope in E.
    replace (pre ++ (t ++ "|" ++ p ++ "$") ++ post)
      with (pre ++ t ++ "|" ++ (p ++ "$" ++ post)) in E
      by now rewrite !StrFacts.app_assoc.
    destruct (find_head_complete pre t (p ++ "$" ++ post) Hv) as [[t' rest'] Eh].
    rewrite Eh in E.
    destruct (find_head_rest _ _ _ _ _ Hv Eh) as (y & ->).
    destruct (before_last_dollar (y ++ p ++ "$" ++ post)) eqn:Ed; [discriminate |].
    apply before_last_dollar_None in Ed.
    rewrite 2!StrFacts.mem_app in Ed.
    change (PyStr.mem "$" ("$" ++ post)) with true in Ed.
    rewrite !orb_true_r in Ed. discriminate Ed.
  - intros Hno. destruct (last_envelope s) as [[t p]|] eqn:E; [| reflexivity].
    exfalso. apply Hno. apply last_envelope_iff in E as [x after -> Hv _ _].
    exists x, (t ++ "|" ++ p ++ "$"), after. split.
    + now rewrite !StrFacts.app_assoc.
    + now exists t, p.
Qed.

(** The envelope [serialize] writes is read back whole, whatever its
    payload holds. *)
Lemma last_envelope_written (t p : string) :
  valid_tag t = true -> last_envelope (t ++ "|" ++ p ++ "$") = Some (t, p).
Proof.
  intros Hv. apply last_envelope_iff.
  apply (LastEnveloped _ t p EmptyString EmptyString); try reflexivity; [exact Hv |].
  intros. simpl. lia.
Qed.

(** No extraction reads back every envelope [serialize] writes and also
    takes, in every text, the envelope that starts last: the text [a|b|c$]
    is the envelope of the payload [b|c] under the tag [a], and the one
    that starts last in it has the tag [b]. *)
Lemma written_envelope_or_last_start (extract : string -> option (string * string)) :
  (forall t p, valid_tag t = true -> extract (t ++ "|" ++ p ++ "$") = Some (t, p)) ->
  ~ (forall pre t p,
       valid_tag t = true -> PyStr.mem "|" p = false ->
       extract (pre ++ t ++ "|" ++ p ++ "$") = Some (t, p)).
Proof.
  intros Hwritten Hlast.
  pose proof (Hwritten "a" "b|c" eq_refl) as E1.
  pose proof (Hlast "a|" "b" "c" eq_refl eq_refl) as E2.
  change ("a|" ++ "b" ++ "|" ++ "c" ++ "$") with ("a" ++ "|" ++ "b|c" ++ "$") in E2.
  rewrite E1 in E2. discriminate E2.
Qed.

End EnvelopeFacts.

(** ** The facade *)

Module FacadeFacts.
Import Serialization.

Lemma valid_tag_grammar (t : string) : valid_tag t = true <-> tag_grammar t.
Proof.
  assert (forall c, is_tag_start c = true <-> is_letter c = true \/ c = "_"%char) as Hs.
  { intros c. unfold is_tag_start. rewrite orb_true_iff, Ascii.eqb_eq. tauto. }
  assert (forall x, is_tag_char x = true <->
            is_letter x = true \/ is_digit x = true \/
            x = "_"%char \/ x = "."%char \/ x = "-"%char) as Hc.
  { intros x. unfold is_tag_char. rewrite !orb_true_iff, Hs, !Ascii.eqb_eq. tauto. }
  assert (forall r, all_tag_chars r = true <->
            forall x, PyStr.mem x r = true -> is_tag_char x = true) as Hr.
  { induction r as [|c r IH]; simpl.
    - split; [discriminate | reflexivity].
    - rewrite andb_true_iff, IH. split.
      + intros [Hh Ht] x Hx. apply orb_prop in Hx as [Hx | Hx]; [| now apply Ht].
        apply Ascii.eqb_eq in Hx. now subst x.
      + intros Hall. split.
        * apply Hall. now rewrite Ascii.eqb_refl.
        * intros x Hx. apply Hall. now rewrite Hx, orb_true_r. }
  split.
  - destruct t as [|c r]; [discriminate |]. simpl. rewrite andb_true_iff.
    intros [Hstart Hrest]. exists c, r. split; [reflexivity |].
    split; [now apply Hs |]. intros x Hx. apply Hc.
    destruct (Hr r) as [Hall _]. now apply Hall.
  - intros (c & r & -> & Hstart & Hrest). simpl. apply andb_true_iff.
    split; [now apply Hs |]. destruct (Hr r) as [_ Hall]. apply Hall.
    intros x Hx. now apply Hc, Hrest.
Qed.

(** the grammar of the specification admits two tags that
    [test_serializer_valid_types] expects [register] to reject *)
Lemma grammar_admits_underscore_tags :
  valid_tag "_.type" = true /\ valid_tag "_9type" = true.
Proof. split; reflexivity. Qed.

Lemma register_failure (type : string) (serializer : pyobject) (f f' : Facade) (e : exn) :
  register type serializer f = (Raise e, f') -> f' = f.
Proof.
  unfold register.
  destruct (valid_tag type); cbn [negb]; [| now intros [= _ <-]].
  destruct (declares_capability serializer); cbn [negb]; [discriminate |].
  now intros [= _ <-].
Qed.

Lemma register_tags (type : string) (serializer : pyobject) (f : Facade) :
  (forall t s, serializers f !! t = Some s -> valid_tag t = true) ->
  forall t s, serializers (snd (register type serializer f)) !! t = Some s ->
              valid_tag t = true.
Proof.
  intros Hf t s. unfold register.
  destruct (valid_tag type) eqn:Hv; cbn [negb snd]; [| apply Hf].
  destruct (declares_capability serializer); cbn [negb snd serializers]; [| apply Hf].
  destruct (decide (type = t)) as [<- | Hne]; [now intros _ |].
  rewrite lookup_insert_ne by exact Hne. apply Hf.
Qed.

Lemma register_all_tags (l : list (string * pyobject)) (f : Facade) :
  (forall t s, serializers f !! t = Some s -> valid_tag t = true) ->
  forall t s, serializers (snd (register_all l f)) !! t = Some s -> valid_tag t = true.
Proof.
  revert f. induction l as [|[type serializer] l IH]; intros f Hf; [exact Hf |].
  cbn [register_all]. unfold bind.
  pose proof (register_tags type serializer f Hf) as Hr.
  destruct (register type serializer f) as [[[]|e] f1]; cbn [snd] in *.
  - now apply IH.
  - exact Hr.
Qed.

Lemma register_all_type (l : list (string * pyobject)) (f : Facade) :
  current_type (snd (register_all l f)) = current_type f.
Proof.
  revert f. induction l as [|[type serializer] l IH]; intros f; [reflexivity |].
  cbn [register_all]. unfold bind.
  assert (current_type (snd (register type serializer f)) = current_type f) as Hr.
  { unfold register. destruct (valid_tag type); [| reflexivity].
    now destruct (declares_capability serializer). }
  destruct (register type serializer f) as [[[]|e] f1]; cbn [snd] in *.
  - now rewrite IH.
  - exact Hr.
Qed.

Lemma after_tags (c : call) (f : Facade) :
  (forall t s, serializers f !! t = Some s -> valid_tag t = true) ->
  forall t s, serializers (after c f) !! t = Some s -> valid_tag t = true.
Proof.
  intros Hf. destruct c as [context type | text | type serializer |]; cbn [after].
  - unfold serialize. now destruct (serializers f !! _).
  - unfold deserialize. destruct (last_envelope text) as [[tag payload]|]; [| exact Hf].
    destruct (serializers f !! tag) as [s0|]; [| exact Hf].
    now destruct (ser_deserialize s0 payload).
  - now apply register_tags.
  - exact Hf.
Qed.

Lemma new_facade_unfold (J : Serializer) (initial : list (string * pyobject)) :
  SerializationFacade J initial =
    match register_all initial
            {| serializers := <["json" := J]> ∅; current_type := "json" |} with
    | (Ok _, f) => Ok f
    | (Raise e, _) => Raise e
    end.
Proof. reflexivity. Qed.

(** every tag of a facade matches the grammar *)
Lemma reachable_tags (J : Serializer) (f : Facade) :
  reachable J f -> forall t s, serializers f !! t = Some s -> valid_tag t = true.
Proof.
  induction 1 as [initial f Hnew | c f _ IH]; [| now apply after_tags].
  rewrite new_facade_unfold in Hnew.
  pose proof (register_all_tags initial
                {| serializers := <["json" := J]> ∅; current_type := "json" |}) as Ha.
  destruct (register_all initial _) as [[[]|e] f1]; [| discriminate].
  injection Hnew as <-. apply Ha. intros t s. cbn [serializers].
  destruct (decide ("json" = t)) as [<- | Hne]; [reflexivity |].
  rewrite lookup_insert_ne by exact Hne. now rewrite lookup_empty.
Qed.

Lemma new_facade_type (J : Serializer) (initial : list (string * pyobject)) (f : Facade) :
  SerializationFacade J initial = Ok f -> current_type f = "json".
Proof.
  rewrite new_facade_unfold.
  pose proof (register_all_type initial
                {| serializers := <["json" := J]> ∅; current_type := "json" |}) as Ha.
  destruct (register_all initial _) as [[[]|e] f1]; [| discriminate].
  now intros [= <-].
Qed.

Lemma deserialize_enveloped (text t p : string) (f : Facade) :
  last_enveloped text t p ->
  deserialize text f =
    match serializers f !! t with
    | None => (Raise (UnknownSerializerType t), f)
    | Some s =>
        match ser_deserialize s p with
        | Ok context => (Ok context, {| serializers := serializers f; current_type := t |})
        | Raise e => (Raise e, f)
        end
    end.
Proof.
  intros He. apply EnvelopeFacts.last_envelope_iff in He.
  unfold deserialize. now rewrite He.
Qed.

End FacadeFacts.

(** ** The properties of the facade *)

(** C2, for faithful serializers: on every facade, for every registered tag
    [T] whose serializer decodes its own encoding of the context [C] back to
    [C], [serialize(C, T)] gives the envelope [T|payload$] and [deserialize]
    of that envelope on the same facade returns [C] (and makes [T] the
    current type), whatever characters the payload holds. *)
Theorem C2_round_trip_of_faithful_serializers
    (J : Serialization.Serializer) (f : Serialization.Facade)
    (T : string) (s : Serialization.Serializer) (C : gmap string json) :
  Serialization.reachable J f ->
  Serialization.serializers f !! T = Some s ->
  Serialization.ser_deserialize s (Serialization.ser_serialize s C) = Ok C ->
  exists envelope,
    envelope = T ++ "|" ++ Serialization.ser_serialize s C ++ "$" /\
    Serialization.serialize C (Some T) f = (Ok envelope, f) /\
    Serialization.deserialize envelope f
    = (Ok C, {| Serialization.serializers := Serialization.serializers f;
                Serialization.current_type := T |}).
Proof.
  intros Hf Hs Hround. eexists. split; [reflexivity |]. split.
  - unfold Serialization.serialize. now rewrite Hs.
  - unfold Serialization.deserialize.
    rewrite EnvelopeFacts.last_envelope_written
      by exact (FacadeFacts.reachable_tags J f Hf T s Hs).
    now rewrite Hs, Hround.
Qed.

(** C6: a facade just constructed answers [json] to [get_type]. A call that
    changes the current type is a [deserialize] that succeeded, and the new
    type is the tag of the last envelope of its input. [serialize] leaves
    the facade as it is, a [deserialize] that raises too, and after any
    calls none of which is a [deserialize] the current type is what it
    was. *)
Theorem C6_current_type_follows_deserialize :
  (forall J initial f,
     Serialization.SerializationFacade J initial = Ok f ->
     Serialization.get_type f = (Ok "json", f)) /\
  (forall c f,
     Serialization.current_type (Serialization.after c f)
       <> Serialization.current_type f ->
     exists text t p context,
       c = Serialization.CallDeserialize text /\
       Serialization.last_enveloped text t p /\
       Serialization.deserialize text f = (Ok context, Serialization.after c f) /\
       Serialization.current_type (Serialization.after c f) = t) /\
  (forall context type f, snd (Serialization.serialize context type f) = f) /\
  (forall text e f f',
     Serialization.deserialize text f = (Raise e, f') -> f' = f) /\
  (forall text context f f',
     Serialization.deserialize text f = (Ok context, f') ->
     exists t p, Serialization.last_enveloped text t p /\
                 Serialization.current_type f' = t) /\
  (forall calls f,
     forallb (fun c => negb (Serialization.is_deserialize c)) calls = true ->
     Serialization.current_type (Serialization.after_all calls f)
     = Serialization.current_type f).
Proof.
  assert (forall context type f, snd (Serialization.serialize context type f) = f)
    as Hser.
  { intros context type f. unfold Serialization.serialize.
    now destruct (Serialization.serializers f !! _). }
  assert (forall type serializer f,
            Serialization.current_type (snd (Serialization.register type serializer f))
            = Serialization.current_type f) as Hreg.
  { intros type serializer f. unfold Serialization.register.
    destruct (Serialization.valid_tag type); [| reflexivity].
    now destruct (Serialization.declares_capability serializer). }
  assert (forall text f,
            (exists e, Serialization.deserialize text f = (Raise e, f)) \/
            exists t p context,
              Serialization.last_enveloped text t p /\
              Serialization.deserialize text f
              = (Ok context, {| Serialization.serializers := Serialization.serializers f;
                                Serialization.current_type := t |})) as Hdes.
  { intros text f. unfold Serialization.deserialize.
    destruct (Serialization.last_envelope text) as [[t p]|] eqn:E; [| left; now eexists].
    apply EnvelopeFacts.last_envelope_iff in E.
    destruct (Serialization.serializers f !! t) as [s|]; [| left; now eexists].
    destruct (Serialization.ser_deserialize s p) as [context|e]; [| left; now eexists].
    right. now exists t, p, context. }
  split; [| split; [| split; [| split; [| split]]]].
  - intros J initial f Hnew. unfold Serialization.get_type.
    now rewrite (FacadeFacts.new_facade_type J initial f Hnew).
  - intros [context type | text | type serializer |] f Hne; cbn [Serialization.after] in *.
    + now rewrite Hser in Hne.
    + destruct (Hdes text f) as [[e E] | (t & p & context & He & E)];
        rewrite E in *; cbn [snd] in *; [now contradict Hne |].
      now exists text, t, p, context.
    + now rewrite Hreg in Hne.
    + now contradict Hne.
  - exact Hser.
  - intros text e f f' E.
    destruct (Hdes text f) as [[e' E'] | (t & p & context & _ & E')];
      rewrite E' in E; [now injection E as _ <- | discriminate].
  - intros text context f f' E.
    destruct (Hdes text f) as [[e' E'] | (t & p & context' & He & E')];
      rewrite E' in E; [discriminate |].
    injection E as _ <-. now exists t, p.
  - intros calls. unfold Serialization.after_all.
    induction calls as [|c calls IH]; intros f Hall; [reflexivity |].
    cbn [forallb] in Hall. apply andb_prop in Hall as [Hc Hall].
    cbn [foldl]. rewrite (IH _ Hall).
    destruct c as [context type | text | type serializer |]; cbn [Serialization.after].
    + now rewrite Hser.
    + discriminate.
    + apply Hreg.
    + reflexivity.
Qed.

(** C7: [register] raises [InvalidSerializerType] for every tag that does
    not match the grammar [[A-Za-z_][A-Za-z0-9_.-]*], the tags [9type],
    [-type], [.type], [typ|e], [typ:e] and [typ!e] among them; for a tag
    that matches it raises [InvalidType] for every instance or class that
    does not declare the capability [AbstractSerializer], with whatever
    methods, as for the [FakeSerializer] of the tests; and whenever it
    raises, the facade is left as it was. *)
Theorem C7_register_rejects :
  (forall type serializer f,
     ~ Serialization.tag_grammar type ->
     Serialization.register type serializer f = (Raise (InvalidSerializerType type), f)) /\
  Forall (fun t => ~ Serialization.tag_grammar t)
    ["9type"; "-type"; ".type"; "typ|e"; "typ:e"; "typ!e"] /\
  (forall type serializer f,
     Serialization.tag_grammar type ->
     Serialization.declares_capability serializer = false ->
     Serialization.register type serializer f
     = (Raise (InvalidType Serialization.invalid_type_message), f)) /\
  (forall f,
     Serialization.register "fake" TestSerializers.FakeSerializer f
     = (Raise (InvalidType Serialization.invalid_type_message), f) /\
     TestSerializers.contains "AbstractSerializer" Serialization.invalid_type_message
     = true) /\
  (forall type serializer f e f',
     Serialization.register type serializer f = (Raise e, f') -> f' = f).
Proof.
  split; [| split; [| split; [| split]]].
  - intros type serializer f Hno. unfold Serialization.register.
    destruct (Serialization.valid_tag type) eqn:Hv; [| reflexivity].
    now apply FacadeFacts.valid_tag_grammar in Hv.
  - repeat constructor; intros Hg; apply FacadeFacts.valid_tag_grammar in Hg;
      discriminate.
  - intros type serializer f Hg Hd. apply FacadeFacts.valid_tag_grammar in Hg.
    unfold Serialization.register. now rewrite Hg, Hd.
  - intros f. split; reflexivity.
  - intros type serializer f e f'. apply FacadeFacts.register_failure.
Qed.

(** ** The facade of the tests *)

Module ToyFacadeFacts.
Import Serialization.

Lemma dummy_facade_reachable : reachable Toy.JsonSerializer Toy.dummy_facade.
Proof.
  apply (ReachNew _ [("dummy", Instance true TestSerializers.DummySerializer)]).
  reflexivity.
Defined.

Lemma object_differs : TestSerializers.object <> Toy.other_context.
Proof.
  intros E. apply (f_equal (fun m : gmap string json => m !! "my_key")) in E.
  vm_compute in E. discriminate.
Defined.

(** the facade passes [test_deserialize_the_last_serialized_string_found],
    [test_missing_type_in_serialized_string] and the round trip of
    [test_use_serializer] and [test_json_serialization] *)
Lemma tests_of_deserialize :
  fst (deserialize
         ("dummy text dummy|" ++ ser_serialize TestSerializers.DummySerializer
                                   TestSerializers.object
          ++ "$ another dummy text dummy|"
          ++ ser_serialize TestSerializers.DummySerializer TestSerializers.object2
          ++ "$") Toy.dummy_facade)
  = Ok TestSerializers.object2 /\
  fst (deserialize Toy.my_key_text Toy.dummy_facade)
  = Raise (BadSerializedStringFormat bad_format_message) /\
  fst (deserialize "dummy|serialized$" Toy.dummy_facade) = Ok TestSerializers.object /\
  fst (deserialize ("json|" ++ Toy.my_key_text ++ "$") Toy.dummy_facade)
  = Ok TestSerializers.object.
Proof. repeat split; reflexivity. Qed.

End ToyFacadeFacts.

(** C2 fails as stated. The [DummySerializer] of the tests, registered under
    [dummy], encodes the context [{"other_key": "x"}] as [serialized] and
    decodes that as [{"my_key": "my_val"}]: the round trip returns another
    context. *)
Lemma C2_counterexample :
  Serialization.reachable Toy.JsonSerializer Toy.dummy_facade /\
  Serialization.serializers Toy.dummy_facade !! "dummy"
  = Some TestSerializers.DummySerializer /\
  Serialization.serialize Toy.other_context (Some "dummy") Toy.dummy_facade
  = (Ok "dummy|serialized$", Toy.dummy_facade) /\
  fst (Serialization.deserialize "dummy|serialized$" Toy.dummy_facade)
  = Ok TestSerializers.object /\
  TestSerializers.object <> Toy.other_context.
Proof.
  split; [exact ToyFacadeFacts.dummy_facade_reachable |].
  split; [reflexivity |]. split; [reflexivity |]. split; [reflexivity |].
  exact ToyFacadeFacts.object_differs.
Qed.

Lemma C2_witness :
  Serialization.deserialize "dummy|serialized$" Toy.dummy_facade
  = (Ok TestSerializers.object,
     {| Serialization.serializers := Serialization.serializers Toy.dummy_facade;
        Serialization.current_type := "dummy" |}).
Proof.
  destruct (C2_round_trip_of_faithful_serializers
              Toy.JsonSerializer Toy.dummy_facade "dummy"
              TestSerializers.DummySerializer TestSerializers.object
              ToyFacadeFacts.dummy_facade_reachable eq_refl eq_refl)
    as (envelope & -> & _ & Hd).
  exact Hd.
Defined.

Lemma C6_witness :
  Serialization.get_type Toy.dummy_facade = (Ok "json", Toy.dummy_facade) /\
  Serialization.current_type
    (Serialization.after_all
       [Serialization.CallSerialize TestSerializers.object (Some "dummy");
        Serialization.CallGetType;
        Serialization.CallRegister "9type" TestSerializers.FakeSerializer]
       Toy.dummy_facade)
  = "json".
Proof.
  destruct C6_current_type_follows_deserialize as (Hnew & _ & _ & _ & _ & Hcalls).
  split.
  - apply (Hnew Toy.JsonSerializer
             [("dummy", Serialization.Instance true TestSerializers.DummySerializer)]).
    reflexivity.
  - rewrite Hcalls; reflexivity.
Defined.

Lemma C7_witness :
  Serialization.register "typ|e"
    (Serialization.Instance true TestSerializers.DummySerializer) Toy.dummy_facade
  = (Raise (InvalidSerializerType "typ|e"), Toy.dummy_facade) /\
  Serialization.register "fake" TestSerializers.FakeSerializer Toy.dummy_facade
  = (Raise (InvalidType Serialization.invalid_type_message), Toy.dummy_facade).
Proof.
  destruct C7_register_rejects as (Htag & _ & Htype & _ & _).
  split.
  - apply Htag. intros Hg. apply FacadeFacts.valid_tag_grammar in Hg. discriminate.
  - apply Htype; [| reflexivity]. apply FacadeFacts.valid_tag_grammar. reflexivity.
Defined.

(** ** Paths *)

Module PathFacts.

Lemma rfind_from_absent (c : ascii) (s : string) (i acc : Z) :
  PyStr.mem c s = false -> PyStr.rfind_from c s i acc = acc.
Proof.
  revert i acc. induction s as [|a s IH]; intros i acc E; [reflexivity |].
  apply StrFacts.mem_cons_false in E as [Ha Hs]. simpl. rewrite Ha. now apply IH.
Qed.

Lemma rfind_from_app (c : ascii) (a b : string) (i acc : Z) :
  PyStr.rfind_from c (a ++ b) i acc
  = PyStr.rfind_from c b (i + Z.of_nat (String.length a)) (PyStr.rfind_from c a i acc).
Proof.
  revert i acc. induction a as [|x a IH]; intros i acc; simpl.
  - now rewrite Z.add_0_r.
  - rewrite IH. f_equal. lia.
Qed.

(** the last index of [c] in [a ++ c ++ b] when [b] has no [c] *)
Lemma rfind_last (c : ascii) (a b : string) :
  PyStr.mem c b = false ->
  PyStr.rfind c (a ++ String c b) = Z.of_nat (String.length a).
Proof.
  intros Hb. unfold PyStr.rfind. rewrite rfind_from_app. simpl.
  rewrite Ascii.eqb_refl. now rewrite rfind_from_absent.
Qed.

Lemma rfind_absent (c : ascii) (s : string) :
  PyStr.mem c s = false -> PyStr.rfind c s = -1.
Proof. apply rfind_from_absent. Qed.

Lemma drop_app (a b : string) : PyStr.drop (String.length a) (a ++ b) = b.
Proof. induction a as [|x a IH]; [reflexivity | exact IH]. Qed.

Lemma take_app (a b : string) : PyStr.take (String.length a) (a ++ b) = a.
Proof.
  induction a as [|x a IH]; simpl; [now destruct b | now rewrite IH].
Qed.

Lemma rfind_slash_dir (d rest : string) :
  directory_prefix d -> PyStr.mem "/" rest = false ->
  Z.to_nat (PyStr.rfind "/" (d ++ rest) + 1) = String.length d /\
  PyStr.rfind "/" (d ++ rest) < Z.of_nat (String.length d).
Proof.
  intros [-> | [q ->]] Hr.
  - rewrite StrFacts.app_nil_l, rfind_absent by exact Hr. simpl. lia.
  - rewrite StrFacts.app_assoc.
    change ("/" ++ rest) with (String "/" rest).
    rewrite rfind_last by exact Hr.
    rewrite StrFacts.length_app. simpl. lia.
Qed.

(** [splitext] of a path whose last component is [b], a dot and [e] *)
Lemma splitext_extension (d b e : string) :
  directory_prefix d ->
  PyStr.mem "/" b = false ->
  PyStr.all_char "." b = false ->
  PyStr.mem "." e = false ->
  PyStr.mem "/" e = false ->
  PyStr.splitext (d ++ b ++ "." ++ e) = (d ++ b, "." ++ e).
Proof.
  intros Hd Hb Hdots He Hs. unfold PyStr.splitext.
  assert (PyStr.mem "/" (b ++ "." ++ e) = false) as Hrest.
  { rewrite StrFacts.mem_app, Hb. simpl. exact Hs. }
  destruct (rfind_slash_dir d (b ++ "." ++ e) Hd Hrest) as [Hsep Hlt].
  assert (PyStr.rfind "." (d ++ b ++ "." ++ e) = Z.of_nat (String.length (d ++ b)))
    as Hdot.
  { rewrite <- StrFacts.app_assoc. change ("." ++ e) with (String "." e).
    now apply rfind_last. }
  rewrite Hdot, Hsep.
  assert ((Z.of_nat (String.length (d ++ b)) >? PyStr.rfind "/" (d ++ b ++ "." ++ e))
          = true) as ->.
  { apply Z.gtb_lt. rewrite StrFacts.length_app. lia. }
  rewrite Nat2Z.id.
  replace (String.length (d ++ b) - String.length d)%nat with (String.length b)
    by (rewrite StrFacts.length_app; lia).
  rewrite drop_app, take_app, Hdots.
  rewrite <- (StrFacts.app_assoc d b), take_app, drop_app. reflexivity.
Qed.

Lemma rfind_from_ge (c : ascii) (s : string) (i acc lo : Z) :
  lo <= acc -> lo <= i -> lo <= PyStr.rfind_from c s i acc.
Proof.
  revert i acc. induction s as [|x s IH]; intros i acc Ha Hi; simpl; [exact Ha |].
  apply IH; [destruct (Ascii.eqb x c); lia | lia].
Qed.

(** [splitext] of a name without dot *)
Lemma splitext_plain (b : string) :
  PyStr.mem "." b = false -> PyStr.splitext b = (b, EmptyString).
Proof.
  intros Hdot. unfold PyStr.splitext. rewrite (rfind_absent "." b Hdot).
  pose proof (rfind_from_ge "/" b 0 (-1) (-1)) as Hsep. fold (PyStr.rfind "/" b) in Hsep.
  destruct (-1 >? PyStr.rfind "/" b) eqn:E; [| reflexivity].
  apply Z.gtb_lt in E. lia.
Qed.

Lemma basename_plain (f : string) : PyStr.mem "/" f = false -> PyStr.basename f = f.
Proof. intros Hf. unfold PyStr.basename. now rewrite rfind_absent. Qed.

End PathFacts.

(** ** The hooks found *)

Section FoundHooks.

Context {World : Type} `{Platform World}.

Lemma find_hooks_fold_lookup
    (listing : list string) (name : string) (w : World) (r : gmap string string) :
  foldl (fun (r : gmap string string) f =>
           let basename := fst (PyStr.splitext (PyStr.basename f)) in
           if bool_decide (basename ∈ _HOOKS)
           then <[basename := os_path_abspath (PyStr.join "hooks" f) w]> r
           else r) r listing !! name
  = match last (filter (fun f => hook_stem f = name) listing) with
    | Some f =>
        if bool_decide (name ∈ _HOOKS)
        then Some (os_path_abspath (PyStr.join "hooks" f) w)
        else r !! name
    | None => r !! name
    end.
Proof.
  revert r. induction listing as [|f listing IH]; intros r; [reflexivity |].
  cbn [foldl]. rewrite IH. clear IH. cbv zeta. fold (hook_stem f).
  rewrite filter_cons.
  assert ((if bool_decide (hook_stem f ∈ _HOOKS)
           then <[hook_stem f := os_path_abspath (PyStr.join "hooks" f) w]> r
           else r) !! name
          = if decide (hook_stem f = name)
            then (if bool_decide (name ∈ _HOOKS)
                  then Some (os_path_abspath (PyStr.join "hooks" f) w)
                  else r !! name)
            else r !! name) as Hstep.
  { destruct (decide (hook_stem f = name)) as [<- | Hne].
    - case_bool_decide; [apply lookup_insert_eq | reflexivity].
    - case_bool_decide; [now apply lookup_insert_ne | reflexivity]. }
  rewrite Hstep.
  destruct (decide (hook_stem f = name)) as [E | Hne].
  - rewrite last_cons.
    destruct (last (filter (fun f0 => hook_stem f0 = name) listing));
      destruct (bool_decide (name ∈ _HOOKS)); reflexivity.
  - reflexivity.
Qed.

Lemma find_hooks_listed (listing : list string) (w w' : World) :
  os_path_isdir "hooks" w = true ->
  os_listdir "hooks" w = (Ok listing, w') ->
  exists hooks,
    find_hooks w = (Ok hooks, w') /\
    forall name,
      hooks !! name =
        if bool_decide (name ∈ _HOOKS)
        then (fun f => os_path_abspath (PyStr.join "hooks" f) w')
               <$> last (filter (fun f => hook_stem f = name) listing)
        else None.
Proof.
  intros Hd Hl. eexists. split.
  - unfold find_hooks, bind. now rewrite Hd, Hl.
  - intros name. rewrite find_hooks_fold_lookup, lookup_empty.
    destruct (last (filter _ listing)); now case_bool_decide.
Qed.

(** X1: with the [hooks] directory listed, [find_hooks] has a key only for
    the two recognised names, and the key [name] holds the absolute path of
    the last listed file whose name without extension is [name]. *)
Theorem find_hooks_lookup (listing : list string) (w w' : World) :
  os_path_isdir "hooks" w = true ->
  os_listdir "hooks" w = (Ok listing, w') ->
  exists hooks,
    find_hooks w = (Ok hooks, w') /\
    (forall name, name ∉ _HOOKS -> hooks !! name = None) /\
    (forall name,
       name ∈ _HOOKS ->
       hooks !! name =
         (fun f => os_path_abspath (PyStr.join "hooks" f) w')
           <$> last (filter (fun f => hook_stem f = name) listing)).
Proof.
  intros Hd Hl. destruct (find_hooks_listed listing w w' Hd Hl) as (hooks & Hf & Hk).
  exists hooks. split; [exact Hf |]. split; intros name Hn; rewrite Hk.
  - now rewrite bool_decide_eq_false_2.
  - now rewrite bool_decide_eq_true_2.
Qed.

(** X2: for a name other than the two recognised ones, [run_hook] returns
    the context it was given whatever the [hooks] directory holds, a file
    of that very name included. *)
Theorem run_hook_unrecognised_name
    (hook_name project_dir : string) (context : gmap string json) (w : World) :
  hook_name ∉ _HOOKS ->
  (os_path_isdir "hooks" w = false \/
   exists listing w', os_listdir "hooks" w = (Ok listing, w')) ->
  fst (run_hook hook_name project_dir context w) = Ok (JDict context).
Proof.
  intros Hn Hl. unfold run_hook, bind.
  destruct (os_path_isdir "hooks" w) eqn:Hd.
  - destruct Hl as [Hl | (listing & w' & Hl)]; [discriminate |].
    destruct (find_hooks_listed listing w w' Hd Hl) as (hooks & -> & Hk).
    now rewrite Hk, bool_decide_eq_false_2.
  - unfold find_hooks. rewrite Hd. cbn [negb]. now rewrite lookup_empty.
Qed.

(** X3: when several listed files have the name of the hook once their
    extension is taken off, [run_hook] runs the last one listed, by its
    absolute path, in the project directory. *)
Theorem run_hook_runs_last_listed
    (hook_name project_dir f : string) (context : gmap string json)
    (listing : list string) (w w' : World) :
  os_path_isdir "hooks" w = true ->
  os_listdir "hooks" w = (Ok listing, w') ->
  hook_name ∈ _HOOKS ->
  last (filter (fun f => hook_stem f = hook_name) listing) = Some f ->
  run_hook hook_name project_dir context w
  = run_script_with_context (os_path_abspath (PyStr.join "hooks" f) w')
      project_dir context w'.
Proof.
  intros Hd Hl Hn Hlast. unfold run_hook, bind.
  destruct (find_hooks_listed listing w w' Hd Hl) as (hooks & -> & Hk).
  now rewrite Hk, bool_decide_eq_true_2, Hlast.
Qed.

Lemma filter_stem_none (name : string) (listing : list string) :
  (forall f, f ∈ listing -> hook_stem f <> name) ->
  filter (fun f => hook_stem f = name) listing = [].
Proof.
  induction listing as [|f listing IH]; intros Hall; [reflexivity |].
  rewrite filter_cons, decide_False by (apply Hall; now left).
  apply IH. intros g Hg. apply Hall. now right.
Qed.

Lemma hook_name_shape (name : string) :
  name ∈ _HOOKS ->
  PyStr.mem "/" name = false /\ PyStr.mem "." name = false /\
  PyStr.all_char "." name = false.
Proof.
  intros Hn. apply list_elem_of_In in Hn.
  destruct Hn as [<- | [<- | []]]; repeat split; reflexivity.
Qed.

Lemma hook_stem_extension (name e : string) :
  PyStr.mem "/" name = false -> PyStr.all_char "." name = false ->
  PyStr.mem "." e = false -> PyStr.mem "/" e = false ->
  hook_stem (name ++ "." ++ e) = name.
Proof.
  intros Hs Hd He1 He2. unfold hook_stem.
  rewrite PathFacts.basename_plain.
  - pose proof (PathFacts.splitext_extension EmptyString name e) as Hx.
    rewrite !StrFacts.app_nil_l in Hx. rewrite Hx; try assumption.
    + reflexivity.
    + now left.
  - rewrite StrFacts.mem_app, Hs. simpl. exact He2.
Qed.

(** X4: a hook is found under any extension free of dots and slashes, and
    without extension; a file with a second extension after the first, as
    a backup [pre_gen_project.py.bak], is not taken for the hook. *)
Theorem find_hooks_extensions (name : string) (listing : list string) (w w' : World) :
  os_path_isdir "hooks" w = true ->
  os_listdir "hooks" w = (Ok listing, w') ->
  name ∈ _HOOKS ->
  exists hooks,
    find_hooks w = (Ok hooks, w') /\
    (forall e,
       PyStr.mem "." e = false -> PyStr.mem "/" e = false ->
       last listing = Some (name ++ "." ++ e) ->
       hooks !! name
       = Some (os_path_abspath (PyStr.join "hooks" (name ++ "." ++ e)) w')) /\
    (last listing = Some name ->
     hooks !! name = Some (os_path_abspath (PyStr.join "hooks" name) w')) /\
    ((forall f, f ∈ listing ->
        exists e1 e2,
          f = name ++ "." ++ e1 ++ "." ++ e2 /\
          PyStr.mem "/" e1 = false /\
          PyStr.mem "." e2 = false /\ PyStr.mem "/" e2 = false) ->
     hooks !! name = None).
Proof.
  intros Hd Hl Hn.
  destruct (hook_name_shape name Hn) as (Hslash & Hdot & Hdots).
  destruct (find_hooks_listed listing w w' Hd Hl) as (hooks & Hf & Hk).
  exists hooks. split; [exact Hf |].
  assert (forall f, last listing = Some f -> hook_stem f = name ->
            hooks !! name = Some (os_path_abspath (PyStr.join "hooks" f) w')) as Hlast.
  { intros f Hlf Hsf. rewrite Hk, bool_decide_eq_true_2 by exact Hn.
    apply last_Some in Hlf as [l' ->].
    rewrite filter_app, filter_cons, decide_True by exact Hsf.
    rewrite filter_nil. now rewrite last_snoc. }
  split; [| split].
  - intros e He1 He2 Hlf. apply Hlast; [exact Hlf |].
    now apply hook_stem_extension.
  - intros Hlf. apply Hlast; [exact Hlf |].
    unfold hook_stem. rewrite PathFacts.basename_plain by exact Hslash.
    now rewrite PathFacts.splitext_plain.
  - intros Hall. rewrite Hk, bool_decide_eq_true_2 by exact Hn.
    rewrite filter_stem_none; [reflexivity |]. intros f Hf' Hsf.
    destruct (Hall f Hf') as (e1 & e2 & -> & H1 & H2 & H3).
    replace (name ++ "." ++ e1 ++ "." ++ e2) with ((name ++ "." ++ e1) ++ "." ++ e2)
      in Hsf by (now rewrite !StrFacts.app_assoc).
    rewrite hook_stem_extension in Hsf; try assumption.
    + apply (f_equal String.length) in Hsf.
      repeat (rewrite ?StrFacts.length_app in Hsf; simpl in Hsf). lia.
    + rewrite StrFacts.mem_app, Hslash. simpl. exact H1.
    + destruct name; [discriminate |]. simpl in Hdots |- *.
      destruct (Ascii.eqb a "."); [| reflexivity]. simpl in Hdots |- *.
      clear -Hdots. revert Hdots. generalize (e1). intros e0.
      induction name as [|x name IH]; [discriminate |]. simpl.
      destruct (Ascii.eqb x "."); [apply IH | reflexivity].
Qed.

End FoundHooks.

(** ** The outcomes of a run *)

Section RunOutcomes.

Context {World : Type} `{Platform World}.

(** the three ways the [try] statement goes: the script cannot be made
    executable, the child cannot be started, or the child exits *)
Lemma run_and_read_context_cases
    (script cwd : string) (context : gmap string json) (w : World) :
  (exists e w',
     make_executable script w = (Raise e, w') /\
     run_and_read_context script cwd context w
     = if is_ValueError e then (Ok (JDict context), w') else (Raise e, w')) \/
  (exists w1 e w',
     make_executable script w = (Ok tt, w1) /\
     Popen_communicate
       (if PyStr.endswith script ".py" then [sys_executable; script] else [script])
       (PyStr.startswith sys_platform "win") cwd (json_dumps context) w1
     = (Raise e, w') /\
     run_and_read_context script cwd context w
     = if is_ValueError e then (Ok (JDict context), w') else (Raise e, w')) \/
  (exists w1 out err status w',
     make_executable script w = (Ok tt, w1) /\
     Popen_communicate
       (if PyStr.endswith script ".py" then [sys_executable; script] else [script])
       (PyStr.startswith sys_platform "win") cwd (json_dumps context) w1
     = (Ok (out, err, status), w') /\
     run_and_read_context script cwd context w
     = if status =? 0 then (context_from_output context out, w')
       else (Raise (FailedHookException
                      ("Hook script failed (exit status: "
                       ++ PyStr.format_d status ++ ")")), w')).
Proof.
  destruct (make_executable script w) as [[[]|e] w1] eqn:Hx.
  - destruct (Popen_communicate
                (if PyStr.endswith script ".py" then [sys_executable; script]
                 else [script])
                (PyStr.startswith sys_platform "win") cwd (json_dumps context) w1)
      as [[[[out err] status]|e] w'] eqn:Hp.
    + right. right. exists w1, out, err, status, w'.
      split; [reflexivity |]. split; [exact Hp |].
      now apply (run_and_read_context_exited _ _ _ _ w1 _ _ err).
    + right. left. exists w1, e, w'. split; [reflexivity |]. split; [exact Hp |].
      unfold run_and_read_context, try_except_ValueError, __do_run_script,
        __get_script_command, bind, ret. rewrite Hx, Hp. now destruct (is_ValueError e).
  - left. exists e, w1. split; [reflexivity |].
    unfold run_and_read_context, try_except_ValueError, __do_run_script,
      __get_script_command, bind, ret. rewrite Hx. now destruct (is_ValueError e).
Qed.

Lemma context_from_output_cases
    (context : gmap string json) (out : string) (v : json) :
  context_from_output context out = Ok v ->
  v = JDict context \/
  exists text m,
    bytes_decode out = Some text /\ Re.last_braced text m /\ json_loads m = Ok v.
Proof.
  unfold context_from_output.
  destruct (bytes_decode out) as [text|]; [| intros [= <-]; now left].
  destruct (last (Re.findall text)) as [m|] eqn:E; [| intros [= <-]; now left].
  destruct (json_loads m) as [v'|e] eqn:Ev.
  - intros [= <-]. right. exists text, m. split; [reflexivity |].
    split; [now apply ReFacts.last_findall_iff | exact Ev].
  - destruct (is_ValueError e); [intros [= <-]; now left | discriminate].
Qed.

(** no [ValueError] comes out of the reading of the output *)
Lemma context_from_output_no_ValueError
    (context : gmap string json) (out : string) (e : exn) :
  context_from_output context out = Raise e -> is_ValueError e = false.
Proof.
  destruct (context_from_output_outcomes context out)
    as [(c & ->) | (text & found & e' & _ & _ & _ & He & ->)]; [discriminate |].
  now intros [= <-].
Qed.

(** X5: [run_script_with_context] raises a [ValueError] only when the
    preparation of the script did, that is when the script is not run in
    place and reading or rendering it raised that [ValueError]; every
    [ValueError] raised from the start of the child on is caught. *)
Theorem run_script_raises_ValueError_only_from_rendering
    (script_path cwd : string) (context : gmap string json)
    (w w' : World) (e : exn) :
  run_script_with_context script_path cwd context w = (Raise e, w') ->
  is_ValueError e = true ->
  run_in_place context = false /\
  __create_renderable_hook script_path context w = (Raise e, w').
Proof.
  unfold run_script_with_context, bind, script_to_run.
  destruct (run_in_place context).
  - unfold ret. intros Hr He. exfalso.
    destruct (run_and_read_context_cases script_path cwd context w)
      as [(e0 & w0 & _ & E) | [(w1 & e0 & w0 & _ & _ & E)
                              | (w1 & out & err & st & w0 & _ & _ & E)]];
      rewrite E in Hr.
    + destruct (is_ValueError e0) eqn:E0; [discriminate |].
      injection Hr as <- _. congruence.
    + destruct (is_ValueError e0) eqn:E0; [discriminate |].
      injection Hr as <- _. congruence.
    + destruct (st =? 0); [| injection Hr as <- _; discriminate].
      injection Hr as Hr _. apply context_from_output_no_ValueError in Hr.
      congruence.
  - destruct (__create_renderable_hook script_path context w) as [[script|e0] w0].
    + intros Hr He. exfalso.
      destruct (run_and_read_context_cases script cwd context w0)
        as [(e1 & w1 & _ & E) | [(w1 & e1 & w2 & _ & _ & E)
                                | (w1 & out & err & st & w2 & _ & _ & E)]];
        rewrite E in Hr.
      * destruct (is_ValueError e1) eqn:E1; [discriminate |].
        injection Hr as <- _. congruence.
      * destruct (is_ValueError e1) eqn:E1; [discriminate |].
        injection Hr as <- _. congruence.
      * destruct (st =? 0); [| injection Hr as <- _; discriminate].
        injection Hr as Hr _. apply context_from_output_no_ValueError in Hr.
        congruence.
    + intros [= <- <-] _. now split.
Qed.

(** X6: whatever [run_script_with_context] returns is the context it was
    given, or what [json.loads] made of the last brace-delimited part of
    the standard output of a child that exited with status 0. *)
Theorem run_script_returns_context_or_parsed_output
    (script_path cwd : string) (context : gmap string json)
    (w w' : World) (v : json) :
  run_script_with_context script_path cwd context w = (Ok v, w') ->
  v = JDict context \/
  exists out err text m,
    hook_exited script_path cwd context w out err 0 w' /\
    bytes_decode out = Some text /\
    Re.last_braced text m /\
    json_loads m = Ok v.
Proof.
  unfold run_script_with_context, bind.
  destruct (script_to_run script_path context w) as [[script|e0] w0] eqn:Hs;
    [| discriminate].
  intros Hr.
  destruct (run_and_read_context_cases script cwd context w0)
    as [(e1 & w1 & _ & E) | [(w1 & e1 & w2 & _ & _ & E)
                            | (w1 & out & err & st & w2 & Hx & Hp & E)]];
    rewrite E in Hr.
  - destruct (is_ValueError e1); [| discriminate]. injection Hr as <- _. now left.
  - destruct (is_ValueError e1); [| discriminate]. injection Hr as <- _. now left.
  - destruct (st =? 0) eqn:Est; [| discriminate]. apply Z.eqb_eq in Est. subst st.
    injection Hr as Hr <-.
    destruct (context_from_output_cases context out v Hr)
      as [-> | (text & m & Hd & Hm & Hv)]; [now left |].
    right. exists out, err, text, m. split; [| now repeat split].
    now apply (HookExited _ _ _ _ _ _ _ _ script w0 w1).
Qed.

(** X7: when the script cannot be made executable or the child cannot be
    started, a [ValueError] is caught and the context given is returned,
    and every other exception is raised to the caller. *)
Theorem run_script_launch_errors
    (script_path cwd script : string) (context : gmap string json)
    (w w1 w' : World) (e : exn) :
  script_to_run script_path context w = (Ok script, w1) ->
  (make_executable script w1 = (Raise e, w') \/
   exists w2,
     make_executable script w1 = (Ok tt, w2) /\
     Popen_communicate
       (if PyStr.endswith script ".py" then [sys_executable; script] else [script])
       (PyStr.startswith sys_platform "win") cwd (json_dumps context) w2
     = (Raise e, w')) ->
  run_script_with_context script_path cwd context w
  = if is_ValueError e then (Ok (JDict context), w') else (Raise e, w').
Proof.
  intros Hs Hl. unfold run_script_with_context, bind. rewrite Hs.
  destruct (run_and_read_context_cases script cwd context w1)
    as [(e1 & w3 & Hx & E) | [(w3 & e1 & w4 & Hx & Hp & E)
                            | (w3 & out & err & st & w4 & Hx & Hp & E)]];
    rewrite E; destruct Hl as [Hl | (w2 & Hl & Hl2)]; rewrite Hx in Hl;
    try discriminate.
  - now injection Hl as <- <-.
  - injection Hl as <-. rewrite Hp in Hl2. now injection Hl2 as <- <-.
  - injection Hl as <-. rewrite Hp in Hl2. discriminate.
Qed.

(** X8: [__do_run_script] returns the two outputs of the child only when
    the script was made executable and the child exited with status 0: the
    output of a child that failed is never returned. *)
Theorem do_run_script_returns_only_after_success
    (script cwd input : string) (w w' : World) (r : string * string) :
  __do_run_script script cwd input w = (Ok r, w') ->
  exists w1,
    make_executable script w = (Ok tt, w1) /\
    Popen_communicate
      (if PyStr.endswith script ".py" then [sys_executable; script] else [script])
      (PyStr.startswith sys_platform "win") cwd input w1
    = (Ok (fst r, snd r, 0), w').
Proof.
  unfold __do_run_script, __get_script_command, bind, ret, raise, EXIT_SUCCESS.
  destruct (make_executable script w) as [[[]|e] w1]; [| discriminate].
  destruct (Popen_communicate _ _ cwd input w1)
    as [[[[out err] status]|e] w2] eqn:Hp; [| discriminate].
  destruct (status =? 0) eqn:Est; cbn [negb]; [| discriminate].
  apply Z.eqb_eq in Est. subst status.
  intros [= <- <-]. now exists w1.
Qed.

(** X9: [__create_renderable_hook] gives a name only when the script was
    read, a temporary file was created with the extension of the script as
    its suffix, and the text rendered with the context was written to it,
    the name being that of the temporary file. When the rendering raises,
    the temporary file has been created already and is left behind: the
    world is the one after its creation. *)
Theorem create_renderable_hook_steps
    (script_path : string) (context : gmap string json) (w : World) :
  (forall name w',
     __create_renderable_hook script_path context w = (Ok name, w') ->
     exists contents w1 w2 output,
       io_open_read script_path w = (Ok contents, w1) /\
       NamedTemporaryFile (snd (PyStr.splitext script_path)) w1 = (Ok name, w2) /\
       Template_render contents context = Ok output /\
       temp_write name output w2 = (Ok tt, w')) /\
  (forall contents w1 name w2 e,
     io_open_read script_path w = (Ok contents, w1) ->
     NamedTemporaryFile (snd (PyStr.splitext script_path)) w1 = (Ok name, w2) ->
     Template_render contents context = Raise e ->
     __create_renderable_hook script_path context w = (Raise e, w2)) /\
  (forall e w1,
     io_open_read script_path w = (Raise e, w1) ->
     __create_renderable_hook script_path context w = (Raise e, w1)).
Proof.
  unfold __create_renderable_hook, bind, ret. split; [| split].
  - intros name w'.
    destruct (io_open_read script_path w) as [[contents|e] w1]; [| discriminate].
    destruct (NamedTemporaryFile _ w1) as [[temp|e] w2] eqn:Ht; [| discriminate].
    destruct (Template_render contents context) as [output|e] eqn:Hj; [| discriminate].
    destruct (temp_write temp output w2) as [[[]|e] w3] eqn:Hw; [| discriminate].
    intros [= <- <-]. now exists contents, w1, w2, output.
  - intros contents w1 name w2 e Hr Ht Hj. now rewrite Hr, Ht, Hj.
  - intros e w1 Hr. now rewrite Hr.
Qed.

End RunOutcomes.

(** ** More on the matches, the rendered script and the facade *)

Module MoreFacts.

Lemma findall_from_elem (s m : string) (k : nat) :
  m ∈ Re.findall_from k s ->
  exists pre mid post,
    s = pre ++ m ++ post /\ m = "{" ++ mid ++ "}" /\ PyStr.mem Re.newline mid = false.
Proof.
  revert k. induction s as [|c r IH]; intros k Hm.
  - now apply elem_of_nil in Hm.
  - assert (m ∈ Re.findall_from 0 r \/ (exists j, m ∈ Re.findall_from j r) \/
            Re.match_here (String c r) = Some m) as Hcases.
    { destruct k as [|k]; cbn [Re.findall_from] in Hm.
      - destruct (Re.match_here (String c r)) as [m0|] eqn:E; [| now left].
        apply elem_of_cons in Hm as [-> | Hm]; [right; right; reflexivity |].
        right. left. eexists. exact Hm.
      - right. left. exists k. exact Hm. }
    destruct Hcases as [Hr | [[j Hr] | Hh]].
    + destruct (IH _ Hr) as (pre & mid & post & -> & Hmid & Hn).
      now exists (String c pre), mid, post.
    + destruct (IH _ Hr) as (pre & mid & post & -> & Hmid & Hn).
      now exists (String c pre), mid, post.
    + destruct (ReFacts.match_here_Some _ _ Hh) as (mid & b & rest & -> & Hs & _ & Hn & _).
      exists EmptyString, mid, (b ++ rest). split; [exact Hs |]. split; [reflexivity |].
      rewrite StrFacts.mem_app in Hn. now apply orb_false_elim in Hn as [Hn _].
Qed.

Lemma substring_suffix (a s : string) :
  substring (String.length a) (String.length s) (a ++ s) = s.
Proof.
  induction a as [|x a IH]; simpl; [| exact IH].
  induction s as [|y s IHs]; simpl; [reflexivity | now rewrite IHs].
Qed.

Lemma endswith_app (a s : string) : PyStr.endswith (a ++ s) s = true.
Proof.
  unfold PyStr.endswith. rewrite StrFacts.length_app.
  replace (String.length s <=? String.length a + String.length s)%nat with true
    by (symmetry; apply Nat.leb_le; lia).
  replace (String.length a + String.length s - String.length s)%nat
    with (String.length a) by lia.
  rewrite substring_suffix. apply String.eqb_refl.
Qed.

Lemma register_all_lookup
    (l : list (string * Serialization.pyobject)) (f f' : Serialization.Facade) :
  Serialization.register_all l f = (Ok tt, f') ->
  Serialization.current_type f' = Serialization.current_type f /\
  forall t,
    Serialization.serializers f' !! t =
      match last (filter (fun p => p.1 = t) l) with
      | Some p => Some (Serialization.instance_of p.2)
      | None => Serialization.serializers f !! t
      end.
Proof.
  revert f. induction l as [|[type o] l IH]; intros f.
  - intros [= <-]. now split.
  - cbn [Serialization.register_all]. unfold bind, Serialization.register.
    destruct (Serialization.valid_tag type); cbn [negb]; [| discriminate].
    destruct (Serialization.declares_capability o); cbn [negb]; [| discriminate].
    intros Hr. destruct (IH _ Hr) as [Hc Hl]. split; [exact Hc |].
    intros t. rewrite Hl, filter_cons. cbn [fst snd Serialization.serializers].
    destruct (decide (type = t)) as [<- | Hne].
    + rewrite last_cons.
      destruct (last (filter (fun p => p.1 = type) l)); [reflexivity |].
      apply lookup_insert_eq.
    + destruct (last (filter (fun p => p.1 = t) l)); [reflexivity |].
      now apply lookup_insert_ne.
Qed.

End MoreFacts.

(** X10: every match of the search in the standard output is a part of it
    that starts with an opening brace, ends with a closing brace and holds
    no newline; and a text of one line has at most one match, so that two
    objects printed on one line are never told apart. *)
Theorem findall_matches_are_braced_lines :
  (forall text m,
     m ∈ Re.findall text ->
     exists pre mid post,
       text = pre ++ m ++ post /\ m = "{" ++ mid ++ "}" /\
       PyStr.mem Re.newline mid = false) /\
  (forall line,
     PyStr.mem Re.newline line = false -> (length (Re.findall line) <= 1)%nat).
Proof.
  split.
  - intros text m. apply MoreFacts.findall_from_elem.
  - intros line Hn.
    destruct (ReFacts.findall_line_cases line Hn) as [-> | (a & mid & b & _ & _ & _ & ->)];
      simpl; lia.
Qed.

Section RenderedScript.

Context {World : Type} `{Platform World}.

(** X11: a hook [d/b.py] that is rendered is still run by the Python
    interpreter: the temporary file is asked for with the suffix [.py], so
    that, the names of temporary files ending with the suffix asked for,
    the child [run_script_with_context] starts is the interpreter followed
    by the temporary file, and the outcome of the run is the one of that
    child. *)
Theorem rendered_python_hook_runs_under_interpreter
    (d b cwd : string) (context : gmap string json)
    (w w1 w2 w3 w4 w' : World) (contents temp_name output out err : string)
    (status : Z) :
  run_in_place context = false ->
  directory_prefix d ->
  PyStr.mem "/" b = false ->
  PyStr.all_char "." b = false ->
  (forall suffix v name v',
     NamedTemporaryFile suffix v = (Ok name, v') -> PyStr.endswith name suffix = true) ->
  io_open_read (d ++ b ++ ".py") w = (Ok contents, w1) ->
  NamedTemporaryFile ".py" w1 = (Ok temp_name, w2) ->
  Template_render contents context = Ok output ->
  temp_write temp_name output w2 = (Ok tt, w3) ->
  make_executable temp_name w3 = (Ok tt, w4) ->
  Popen_communicate [sys_executable; temp_name]
    (PyStr.startswith sys_platform "win") cwd (json_dumps context) w4
  = (Ok (out, err, status), w') ->
  snd (PyStr.splitext (d ++ b ++ ".py")) = ".py" /\
  run_script_with_context (d ++ b ++ ".py") cwd context w
  = if status =? 0 then (context_from_output context out, w')
    else (Raise (FailedHookException
                   ("Hook script failed (exit status: "
                    ++ PyStr.format_d status ++ ")")), w').
Proof.
  intros Hin Hd Hb Hdots Hlaw Hr Ht Hj Hw Hx Hp.
  assert (PyStr.splitext (d ++ b ++ ".py") = (d ++ b, ".py")) as Hext
    by (now apply (PathFacts.splitext_extension d b "py")).
  split; [now rewrite Hext |].
  unfold run_script_with_context, script_to_run, __create_renderable_hook, bind, ret.
  rewrite Hin, Hr, Hext. cbn [snd]. rewrite Ht, Hj, Hw.
  apply (run_and_read_context_exited _ _ _ _ w4 _ _ err); [exact Hx |].
  now rewrite (Hlaw _ _ _ _ Ht).
Qed.

End RenderedScript.

(** X12: the [DummySerializer] of the tests decodes its own encoding of a
    context back to that context for exactly two contexts, the [object] and
    the [object2] of [get_context]. *)
Theorem DummySerializer_round_trips_two_contexts (C : gmap string json) :
  Serialization.ser_deserialize TestSerializers.DummySerializer
    (Serialization.ser_serialize TestSerializers.DummySerializer C) = Ok C
  <-> C = TestSerializers.object \/ C = TestSerializers.object2.
Proof.
  cbn [Serialization.ser_serialize Serialization.ser_deserialize
         TestSerializers.DummySerializer].
  case_bool_decide as Hk.
  - change (TestSerializers.contains "serialized text" " serialized text") with true.
    cbn iota. split.
    + intros [= <-]. now right.
    + intros [-> | ->]; [| reflexivity].
      destruct Hk as [v Hv]. vm_compute in Hv. discriminate.
  - change (TestSerializers.contains "serialized text" "serialized") with false.
    cbn iota. split.
    + intros [= <-]. now left.
    + intros [-> | ->]; [reflexivity |].
      exfalso. apply Hk. now eexists.
Qed.

(** X13: after a [register] that succeeded, [serialize] with the registered
    type frames the payload of the new serializer, whatever was registered
    under that type before; the other types and the current type are as
    they were. *)
Theorem register_replaces_serializer
    (type : string) (o : Serialization.pyobject) (f f' : Serialization.Facade) :
  Serialization.register type o f = (Ok tt, f') ->
  (forall context,
     Serialization.serialize context (Some type) f'
     = (Ok (type ++ "|"
            ++ Serialization.ser_serialize (Serialization.instance_of o) context
            ++ "$"), f')) /\
  (forall t, t <> type ->
     Serialization.serializers f' !! t = Serialization.serializers f !! t) /\
  Serialization.current_type f' = Serialization.current_type f.
Proof.
  unfold Serialization.register.
  destruct (Serialization.valid_tag type); cbn [negb]; [| discriminate].
  destruct (Serialization.declares_capability o); cbn [negb]; [| discriminate].
  intros [= <-]. split; [| split].
  - intros context. unfold Serialization.serialize.
    cbn [Serialization.serializers]. now rewrite lookup_insert_eq.
  - intros t Hne. cbn [Serialization.serializers]. now apply lookup_insert_ne.
  - reflexivity.
Qed.

(** X14: a facade whose construction with an initial mapping succeeded has
    [json] as current type and holds, under each tag, the serializer given
    last for it, the default [json] serializer counting as given first. *)
Theorem facade_construction_registers_all
    (J : Serialization.Serializer) (initial : list (string * Serialization.pyobject))
    (f : Serialization.Facade) :
  Serialization.SerializationFacade J initial = Ok f ->
  Serialization.current_type f = "json" /\
  forall t,
    Serialization.serializers f !! t =
      (fun p => Serialization.instance_of p.2)
        <$> last (filter (fun p => p.1 = t)
                    (("json", Serialization.Class true J) :: initial)).
Proof.
  rewrite FacadeFacts.new_facade_unfold.
  destruct (Serialization.register_all initial _) as [[[]|e] f1] eqn:Hr;
    [| discriminate].
  intros [= <-].
  destruct (MoreFacts.register_all_lookup _ _ _ Hr) as [Hc Hl].
  split; [exact Hc |].
  intros t. rewrite Hl, filter_cons. cbn [fst Serialization.serializers].
  destruct (decide ("json" = t)) as [<- | Hne].
  - rewrite last_cons.
    destruct (last (filter (fun p => p.1 = "json") initial)); [reflexivity |].
    apply lookup_insert_eq.
  - destruct (last (filter (fun p => p.1 = t) initial)); [reflexivity |].
    rewrite lookup_insert_ne by exact Hne. apply lookup_empty.
Qed.

(** ** The further properties on the small platforms *)

Lemma find_hooks_lookup_witness :
  exists hooks,
    find_hooks (Toy.with_hook "hi" EmptyString 0)
    = (Ok hooks, Toy.with_hook "hi" EmptyString 0) /\
    hooks !! "README" = None /\
    hooks !! "pre_gen_project" = Some Toy.script.
Proof.
  assert (os_path_isdir "hooks" (Toy.with_hook "hi" EmptyString 0) = true) as Hd
    by reflexivity.
  assert (os_listdir "hooks" (Toy.with_hook "hi" EmptyString 0)
          = (Ok ["README.md"; "pre_gen_project.sh"], Toy.with_hook "hi" EmptyString 0))
    as Hl by reflexivity.
  destruct (find_hooks_lookup _ _ _ Hd Hl) as (hooks & Hf & Hno & Hyes).
  exists hooks. split; [exact Hf |]. split.
  - apply Hno. intros Hin. apply list_elem_of_In in Hin.
    destruct Hin as [Hin | [Hin | []]]; discriminate.
  - rewrite Hyes; [reflexivity |]. now left.
Defined.

Lemma run_hook_unrecognised_name_witness :
  fst (run_hook "README" "/proj" TestSerializers.object
         (Toy.with_hook "hi" EmptyString 1))
  = Ok (JDict TestSerializers.object).
Proof.
  apply run_hook_unrecognised_name.
  - intros Hin. apply list_elem_of_In in Hin.
    destruct Hin as [Hin | [Hin | []]]; discriminate.
  - right. now eexists _, _.
Defined.

Lemma run_hook_runs_last_listed_witness :
  run_hook "pre_gen_project" "/proj" TestSerializers.object
    (ToyStrict.with_two_hooks "hi")
  = run_script_with_context ToyStrict.python_script "/proj" TestSerializers.object
      (ToyStrict.with_two_hooks "hi").
Proof.
  assert (os_path_isdir "hooks" (ToyStrict.with_two_hooks "hi") = true) as Hd
    by reflexivity.
  assert (os_listdir "hooks" (ToyStrict.with_two_hooks "hi")
          = (Ok ["pre_gen_project.sh"; "pre_gen_project.py"],
             ToyStrict.with_two_hooks "hi")) as Hl by reflexivity.
  assert ("pre_gen_project" ∈ _HOOKS) as Hn by now left.
  assert (last (filter (fun f => hook_stem f = "pre_gen_project")
                  ["pre_gen_project.sh"; "pre_gen_project.py"])
          = Some "pre_gen_project.py") as Hlast by reflexivity.
  exact (run_hook_runs_last_listed "pre_gen_project" "/proj" "pre_gen_project.py"
           TestSerializers.object _ _ _ Hd Hl Hn Hlast).
Defined.

Lemma find_hooks_extensions_witness :
  exists hooks,
    find_hooks (Toy.with_hook "hi" EmptyString 0)
    = (Ok hooks, Toy.with_hook "hi" EmptyString 0) /\
    hooks !! "pre_gen_project" = Some Toy.script.
Proof.
  assert (os_path_isdir "hooks" (Toy.with_hook "hi" EmptyString 0) = true) as Hd
    by reflexivity.
  assert (os_listdir "hooks" (Toy.with_hook "hi" EmptyString 0)
          = (Ok ["README.md"; "pre_gen_project.sh"], Toy.with_hook "hi" EmptyString 0))
    as Hl by reflexivity.
  assert ("pre_gen_project" ∈ _HOOKS) as Hn by now left.
  destruct (find_hooks_extensions _ _ _ _ Hd Hl Hn) as (hooks & Hf & Hext & _).
  exists hooks. split; [exact Hf |].
  apply (Hext "sh"); reflexivity.
Defined.

Lemma run_script_raises_ValueError_only_from_rendering_witness :
  run_in_place TestSerializers.object = false /\
  __create_renderable_hook (H := ToyStrict.platform) Toy.script
    TestSerializers.object ToyStrict.with_binary_hook
  = (Raise (ValueError "UnicodeDecodeError"), ToyStrict.with_binary_hook).
Proof.
  apply (run_script_raises_ValueError_only_from_rendering
           (H := ToyStrict.platform) Toy.script "/proj"); reflexivity.
Defined.

Lemma run_script_returns_context_or_parsed_output_witness :
  JDict new_key_context = JDict TestSerializers.object \/
  exists out err text m w',
    hook_exited Toy.script "/proj" TestSerializers.object
      (Toy.with_hook Toy.chatty_output EmptyString 0) out err 0 w' /\
    bytes_decode out = Some text /\
    Re.last_braced text m /\
    json_loads m = Ok (JDict new_key_context).
Proof.
  assert (run_script_with_context Toy.script "/proj" TestSerializers.object
            (Toy.with_hook Toy.chatty_output EmptyString 0)
          = (Ok (JDict new_key_context),
             snd (run_script_with_context Toy.script "/proj" TestSerializers.object
                    (Toy.with_hook Toy.chatty_output EmptyString 0)))) as Hrun
    by reflexivity.
  destruct (run_script_returns_context_or_parsed_output _ _ _ _ _ _ Hrun)
    as [E | (out & err & text & m & He & Hd & Hm & Hv)].
  - now left.
  - right. eexists out, err, text, m, _. repeat split; eassumption.
Defined.

Lemma run_script_launch_errors_witness :
  fst (run_script_with_context (H := ToyStrict.platform) Toy.script
         (String ToyStrict.nul "/proj") Toy.in_place_context
         (Toy.with_hook "hi" EmptyString 0))
  = Ok (JDict Toy.in_place_context) /\
  fst (run_script_with_context (H := ToyStrict.platform) Toy.script
         "proj" Toy.in_place_context (Toy.with_hook "hi" EmptyString 0))
  = Raise (OSError "proj").
Proof.
  split.
  - rewrite (run_script_launch_errors (H := ToyStrict.platform)
               Toy.script (String ToyStrict.nul "/proj") Toy.script Toy.in_place_context
               (Toy.with_hook "hi" EmptyString 0) (Toy.with_hook "hi" EmptyString 0)
               (snd (make_executable (Platform := ToyStrict.platform) Toy.script
                       (Toy.with_hook "hi" EmptyString 0)))
               (ValueError "embedded null byte")).
    + reflexivity.
    + reflexivity.
    + right. eexists. split; reflexivity.
  - rewrite (run_script_launch_errors (H := ToyStrict.platform)
               Toy.script "proj" Toy.script Toy.in_place_context
               (Toy.with_hook "hi" EmptyString 0) (Toy.with_hook "hi" EmptyString 0)
               (snd (make_executable (Platform := ToyStrict.platform) Toy.script
                       (Toy.with_hook "hi" EmptyString 0)))
               (OSError "proj")).
    + reflexivity.
    + reflexivity.
    + right. eexists. split; reflexivity.
Defined.

Lemma do_run_script_returns_only_after_success_witness :
  exists w1 w',
    make_executable Toy.script (Toy.with_hook "hi" "warn" 0) = (Ok tt, w1) /\
    Popen_communicate [Toy.script] false "/proj" "{}" w1 = (Ok ("hi", "warn", 0), w').
Proof.
  assert (__do_run_script Toy.script "/proj" "{}" (Toy.with_hook "hi" "warn" 0)
          = (Ok ("hi", "warn"),
             snd (__do_run_script Toy.script "/proj" "{}"
                    (Toy.with_hook "hi" "warn" 0)))) as Hrun by reflexivity.
  destruct (do_run_script_returns_only_after_success _ _ _ _ _ _ Hrun)
    as (w1 & Hx & Hp).
  eexists w1, _. split; eassumption.
Defined.

Lemma create_renderable_hook_steps_witness :
  exists contents w1 w2 output w',
    io_open_read Toy.script (Toy.with_hook "hi" EmptyString 0) = (Ok contents, w1) /\
    NamedTemporaryFile ".sh" w1 = (Ok "/tmp/tmp0.sh", w2) /\
    Template_render contents TestSerializers.object = Ok output /\
    temp_write "/tmp/tmp0.sh" output w2 = (Ok tt, w').
Proof.
  destruct (create_renderable_hook_steps Toy.script TestSerializers.object
              (Toy.with_hook "hi" EmptyString 0)) as (Hok & _ & _).
  assert (__create_renderable_hook Toy.script TestSerializers.object
            (Toy.with_hook "hi" EmptyString 0)
          = (Ok "/tmp/tmp0.sh",
             snd (__create_renderable_hook Toy.script TestSerializers.object
                    (Toy.with_hook "hi" EmptyString 0)))) as Hrun by reflexivity.
  destruct (Hok _ _ Hrun) as (contents & w1 & w2 & output & Hr & Ht & Hj & Hw).
  eexists contents, w1, w2, output, _. repeat split; eassumption.
Defined.

Lemma findall_matches_are_braced_lines_witness :
  (exists pre mid post,
     Toy.chatty_output = pre ++ new_key_text ++ post /\
     new_key_text = "{" ++ mid ++ "}" /\ PyStr.mem Re.newline mid = false) /\
  (length (Re.findall "{a} {b}") <= 1)%nat.
Proof.
  destruct findall_matches_are_braced_lines as [Helem Hline]. split.
  - apply Helem. now left.
  - now apply Hline.
Defined.

Lemma rendered_python_hook_runs_under_interpreter_witness :
  Toy.spawned
    (snd (run_script_with_context ToyStrict.python_script "/proj"
            TestSerializers.object (ToyStrict.with_two_hooks "hi")))
  = [["/usr/bin/python"; "/tmp/tmp0.py"]].
Proof.
  edestruct (rendered_python_hook_runs_under_interpreter
               "/template/hooks/" "pre_gen_project" "/proj" TestSerializers.object
               (ToyStrict.with_two_hooks "hi")) as [_ Hrun];
    [ reflexivity
    | right; now exists "/template/hooks"
    | reflexivity
    | reflexivity
    | intros suffix v name v' [= <- _];
      exact (MoreFacts.endswith_app
               ("/tmp/tmp" ++ PyStr.format_d (Z.of_nat (Toy.temp_count v))) suffix)
    | reflexivity | reflexivity | reflexivity | reflexivity | reflexivity
    | reflexivity
    | ].
  change ("/template/hooks/" ++ "pre_gen_project" ++ ".py")
    with ToyStrict.python_script in Hrun.
  rewrite Hrun. reflexivity.
Defined.

Lemma register_replaces_serializer_witness :
  Serialization.serialize TestSerializers.object (Some "json")
    (snd (Serialization.register "json"
            (Serialization.Instance true TestSerializers.DummySerializer)
            Toy.dummy_facade))
  = (Ok "json|serialized$",
     snd (Serialization.register "json"
            (Serialization.Instance true TestSerializers.DummySerializer)
            Toy.dummy_facade)).
Proof.
  exact (proj1 (register_replaces_serializer "json"
                  (Serialization.Instance true TestSerializers.DummySerializer)
                  Toy.dummy_facade _ eq_refl) TestSerializers.object).
Defined.

Lemma facade_construction_registers_all_witness :
  Serialization.current_type Toy.dummy_facade = "json" /\
  Serialization.serializers Toy.dummy_facade !! "dummy"
  = Some TestSerializers.DummySerializer /\
  Serialization.serializers Toy.dummy_facade !! "json" = Some Toy.JsonSerializer.
Proof.
  destruct (facade_construction_registers_all Toy.JsonSerializer
              [("dummy", Serialization.Instance true TestSerializers.DummySerializer)]
              Toy.dummy_facade eq_refl) as [Hc Hl].
  split; [exact Hc |]. split; rewrite Hl; reflexivity.
Defined.
